(** * The whiteboard relay of [src/index.ts]

    A shallow embedding of the room table, the HTTP room-creation endpoint,
    the WebSocket message and close handlers, [broadcast] and
    [checkAndDeleteRoom], followed by the properties of the room session
    state machine. *)

From stdpp Require Import base option list gmap strings pretty.
From Stdlib Require Import ZArith.

Local Open Scope string_scope.
Local Open Scope list_scope.
Local Open Scope nat_scope.
Set Warnings "-register-all,-clear-no-such-hyp".

(** ** JavaScript values that travel in frames *)

(** A value produced by [JSON.parse]. A number is kept as its canonical
    rendering [String(n)]: the handlers only ever use a number as a property
    key or compare it with [0], and both [0] and [-0] render as ["0"].
    An object is the list of its own properties; a lookup takes the first
    entry of a name. [undefined] is not a JSON value: a value that may be
    [undefined] has type [option json]. *)
Inductive json : Type :=
  | JNull
  | JBool (b : bool)
  | JNum (repr : string)
  | JStr (s : string)
  | JArr (items : list json)
  | JObj (props : list (string * json)).

Module JS.

(** [props[name]] on the own properties of an object. *)
Fixpoint own (name : string) (props : list (string * json)) : option json :=
  match props with
  | [] => None
  | (k, v) :: rest => if String.eqb k name then Some v else own name rest
  end.

(** [v.name], for the names the handlers read with it: [event], [data],
    [roomId], [username], [strokes]. None of them is an index, [length] or
    a member of a built-in prototype, so only an object can have one. *)
Definition prop (name : string) (v : json) : option json :=
  match v with
  | JObj props => own name props
  | _ => None
  end.

(** [String(v)]; [None] is the TypeError of an object that cannot be
    converted to a primitive, which a parsed object is when it has an own
    (hence not callable) [toString]. Array elements are joined with commas,
    [null] elements rendering as the empty string. *)
Fixpoint ToString (v : json) : option string :=
  match v with
  | JNull => Some "null"
  | JBool b => Some (if b then "true" else "false")
  | JNum repr => Some repr
  | JStr s => Some s
  | JArr items =>
      (fix join (l : list json) : option string :=
         match l with
         | [] => Some ""
         | x :: rest =>
             let first := match x with JNull => Some "" | _ => ToString x end in
             match rest with
             | [] => first
             | _ :: _ =>
                 match first, join rest with
                 | Some s, Some r => Some (s +:+ "," +:+ r)
                 | _, _ => None
                 end
             end
         end) items
  | JObj props =>
      match own "toString" props with
      | Some _ => None
      | None => Some "[object Object]"
      end
  end.

(** The key that [rooms[v]] reads. *)
Definition ToPropertyKey (v : option json) : option string :=
  match v with
  | None => Some "undefined"
  | Some j => ToString j
  end.

(** [v === name] for a string literal [name]. *)
Definition is_string (name : string) (v : option json) : bool :=
  match v with
  | Some (JStr s) => String.eqb s name
  | _ => false
  end.

(** [v.length === 0] for a [v] that is neither [null] nor [undefined]. *)
Definition length_is_0 (v : json) : bool :=
  match v with
  | JStr s => bool_decide (String.length s = 0)
  | JArr items => bool_decide (length items = 0)
  | JObj props =>
      match own "length" props with
      | Some (JNum repr) => String.eqb repr "0"
      | _ => false
      end
  | JNull | JBool _ | JNum _ => false
  end.

(** The own enumerable properties that a rest pattern copies. *)
Fixpoint characters (i : nat) (s : string) : list (string * json) :=
  match s with
  | EmptyString => []
  | String c s' => (pretty i, JStr (String c EmptyString)) :: characters (S i) s'
  end.

Definition ownEntries (v : json) : list (string * json) :=
  match v with
  | JObj props => props
  | JArr items => imap (λ i x, (pretty i, x)) items
  | JStr s => characters 0 s
  | JNull | JBool _ | JNum _ => []
  end.

(** [const { name, ...rest } = v]: the object [rest]. *)
Definition rest_without (name : string) (v : json) : json :=
  JObj (filter (λ p, p.1 ≠ name) (ownEntries v)).

(** The object literal [{ k1: v1, ... }] as [JSON.stringify] renders it:
    a property whose value is [undefined] is left out. *)
Definition object (fields : list (string * option json)) : json :=
  JObj (omap (λ f, pair f.1 <$> f.2) fields).

(** [array.pop()]: the last element ([undefined] on an empty array) and
    the array that is left. *)
Definition pop {A : Type} (l : list A) : option A * list A :=
  (last l, removelast l).

End JS.

(** ** The room table *)

(** A [WebSocket] object is known by its identity. *)
Definition socket := nat.

Inductive ReadyState : Type := CONNECTING | OPEN | CLOSING | CLOSED.

Definition isOpen (s : ReadyState) : bool :=
  match s with OPEN => true | _ => false end.

(** An entry of [rooms]. [drawings] is never the same array as an entry of
    [history] or [redoStack]: snapshots are pushed as spread copies, and an
    array assigned to [drawings] has just been popped off its stack. Arrays
    are therefore values here. A stack grows at the end of its list. *)
Record Room : Type := mkRoom {
  drawings : list json;
  history : list (list json);
  redoStack : list (list json);
  users : list socket;
  startTime : Z
}.

Definition set_drawings (d : list json) (r : Room) : Room :=
  mkRoom d (history r) (redoStack r) (users r) (startTime r).
Definition set_history (h : list (list json)) (r : Room) : Room :=
  mkRoom (drawings r) h (redoStack r) (users r) (startTime r).
Definition set_redoStack (s : list (list json)) (r : Room) : Room :=
  mkRoom (drawings r) (history r) s (users r) (startTime r).
Definition set_users (u : list socket) (r : Room) : Room :=
  mkRoom (drawings r) (history r) (redoStack r) u (startTime r).

(** The process state the handlers act on: the [rooms] object and, in
    order, every [client.send(message)] made so far. A message is the value
    handed to [JSON.stringify]. [rooms] is the finite map of the own
    properties of the table; what a lookup finds under a name the table
    does not own is decided by [readRoom] below. *)
Record world : Type := mkWorld {
  rooms : gmap string Room;
  outbox : list (socket * json)
}.

(** ** Handlers as state transformers that may return early or throw *)

Inductive exn : Type := SyntaxError | TypeError.

Inductive outcome (A : Type) : Type :=
  | Next (a : A) (w : world)
  | Return (w : world)
  | Throw (e : exn) (w : world).
Arguments Next {A} a w.
Arguments Return {A} w.
Arguments Throw {A} e w.

Definition M (A : Type) : Type := world → outcome A.

#[global] Instance M_ret : MRet M := λ A a w, Next a w.
#[global] Instance M_bind : MBind M := λ A B f m w,
  match m w with
  | Next a w' => f a w'
  | Return w' => Return w'
  | Throw e w' => Throw e w'
  end.

Definition throw {A : Type} (e : exn) : M A := λ w, Throw e w.
Definition return_ : M unit := λ w, Return w.
Definition when (b : bool) (body : M unit) : M unit :=
  if b then body else mret tt.

(** Running a function body: its [return] ends the call, not the caller. *)
Definition call (body : M unit) : M unit := λ w,
  match body w with
  | Next _ w' | Return w' => Next tt w'
  | Throw e w' => Throw e w'
  end.

Fixpoint forEach {A : Type} (l : list A) (callback : A → M unit) : M unit :=
  match l with
  | [] => mret tt
  | x :: l' => call (callback x);; forEach l' callback
  end.

(** Destructuring [v], or reading a property of it, throws on [undefined]
    and [null]. *)
Definition coercible (v : option json) : M json :=
  match v with
  | None | Some JNull => throw TypeError
  | Some j => mret j
  end.

Definition propertyKey (v : option json) : M string :=
  match JS.ToPropertyKey v with
  | Some key => mret key
  | None => throw TypeError
  end.

(** [rooms] is a plain object literal: besides the rooms it owns, a lookup
    finds what [Object.prototype] provides, under these names. Each of them
    yields a function, or [Object.prototype] itself for [__proto__]: a
    truthy object that has none of the fields of a room. *)
Definition Object_prototype_names : list string :=
  ["constructor"; "__defineGetter__"; "__defineSetter__"; "hasOwnProperty";
   "__lookupGetter__"; "__lookupSetter__"; "isPrototypeOf";
   "propertyIsEnumerable"; "toString"; "valueOf"; "__proto__";
   "toLocaleString"].

Definition inherited (key : string) : bool :=
  bool_decide (key ∈ Object_prototype_names).

(** What [rooms[key]] evaluates to. *)
Inductive entry : Type :=
  | Own (room : Room)
  | Inherited
  | Undefined.

Definition truthy (e : entry) : bool :=
  match e with
  | Own _ | Inherited => true
  | Undefined => false
  end.

(** [rooms[key]] *)
Definition readRoom (key : string) : M entry := λ w,
  Next (match rooms w !! key with
        | Some room => Own room
        | None => if inherited key then Inherited else Undefined
        end) w.

(** [rooms[key].field] where a property of that field is read or a method
    of it called next: a TypeError when [rooms[key]] is [undefined], and
    also when it is an inherited object, whose [field] is [undefined]. *)
Definition theRoom (key : string) : M Room := λ w,
  match rooms w !! key with
  | Some room => Next room w
  | None => Throw TypeError w
  end.

(** A [push] or [pop] on a field of [rooms[key]]: as for [theRoom]. *)
Definition updateRoom (key : string) (f : Room → Room) : M unit := λ w,
  match rooms w !! key with
  | Some room => Next tt (mkWorld (<[key := f room]> (rooms w)) (outbox w))
  | None => Throw TypeError w
  end.

(** [rooms[key].field = value]: on an inherited object the assignment sets
    a property of that object and the table is as before; on [undefined]
    it is a TypeError. *)
Definition assignRoom (key : string) (f : Room → Room) : M unit := λ w,
  match rooms w !! key with
  | Some room => Next tt (mkWorld (<[key := f room]> (rooms w)) (outbox w))
  | None => if inherited key then Next tt w else Throw TypeError w
  end.

(** [rooms[key] = room], for a [key] made by [generateRoomId] *)
Definition insertRoom (key : string) (room : Room) : M unit := λ w,
  Next tt (mkWorld (<[key := room]> (rooms w)) (outbox w)).

(** [delete rooms[key]] *)
Definition deleteRoom (key : string) : M unit := λ w,
  Next tt (mkWorld (delete key (rooms w)) (outbox w)).

(** [client.send(message)] *)
Definition send (client : socket) (message : json) : M unit := λ w,
  Next tt (mkWorld (rooms w) (outbox w ++ [(client, message)])).

(** ** The server *)

(** [JSON.parse] belongs to the runtime. A frame is given by what
    [JSON.parse] makes of its text: a SyntaxError, or the value it denotes. *)
Inductive frame : Type :=
  | NotJSON
  | Text (v : json).

Definition JSON_parse (data : frame) : M json :=
  match data with
  | NotJSON => throw SyntaxError
  | Text v => mret v
  end.

(** [{ event, data }], the argument of [JSON.stringify] in every send. *)
Definition envelope (event : string) (data : json) : json :=
  JObj [("event", JStr event); ("data", data)].

(** [Math.random().toString(36).substring(2, 8)], given the rendering
    [Math.random().toString(36)] that the random draw produced. *)
Definition generateRoomId (random36 : string) : string :=
  String.substring 2 6 random36.

(** [app.post('/create-room', ...)]; the result is the [roomId] of the
    response. [now] is the value of [Date.now()]. *)
Definition createRoom (random36 : string) (now : Z) : M string :=
  let roomId := generateRoomId random36 in
  insertRoom roomId
    {| drawings := []; history := [[]]; redoStack := []; users := [];
       startTime := now |};;
  mret roomId.

(** [net] gives the [readyState] of every socket at the time of the call. *)
Definition broadcast (net : socket → ReadyState)
    (roomId : string) (message : json) (currentUser : option socket) : M unit :=
  room ← theRoom roomId;
  forEach (users room) (λ client,
    when (bool_decide (currentUser = Some client)) return_;;
    when (isOpen (net client)) (send client message)).

Definition checkAndDeleteRoom (now : Z) (roomId : string) : M unit :=
  room ← readRoom roomId;
  match room with
  | Own room =>
      when (bool_decide (length (users room) = 0)) (
        let elapsedTime := (now - startTime room)%Z in
        when (bool_decide (5 * 60 * 1000 ≤ elapsedTime)%Z) (deleteRoom roomId))
  | Inherited => throw TypeError
  | Undefined => mret tt
  end.

(** The handlers of one connection: [ws] is its socket and [roomId] the
    [room] query parameter of its URL (a connection without one is closed
    before any handler is installed). *)
Section Connection.
Variable net : socket → ReadyState.
Variable ws : socket.
Variable roomId : string.

Definition join_room (eventData : option json) : M unit :=
  payload ← coercible eventData;
  let roomId := JS.prop "roomId" payload in
  let username := JS.prop "username" payload in
  roomId ← propertyKey roomId;
  room ← readRoom roomId;
  when (truthy room) (
    updateRoom roomId (λ r, set_users (users r ++ [ws]) r);;
    broadcast net roomId
      (envelope "user-joined" (JS.object [("username", username)]))
      (Some ws)).

Definition draw (eventData : option json) : M unit :=
  payload ← coercible eventData;
  let roomId := JS.prop "roomId" payload in
  let drawData := JS.rest_without "roomId" payload in
  roomId ← propertyKey roomId;
  room ← readRoom roomId;
  when (negb (truthy room)) return_;;
  strokes ← coercible (JS.prop "strokes" drawData);
  when (JS.length_is_0 strokes) return_;;
  updateRoom roomId (λ r, set_drawings (drawings r ++ [drawData]) r);;
  updateRoom roomId (λ r, set_history (history r ++ [drawings r]) r);;
  assignRoom roomId (set_redoStack []);;
  broadcast net roomId (envelope "draw" drawData) (Some ws).

Definition undo : M unit :=
  room ← readRoom roomId;
  when (negb (truthy room)) return_;;
  room ← theRoom roomId;
  when (bool_decide (1 < length (history room))) (
    updateRoom roomId (λ r, set_redoStack (redoStack r ++ [drawings r]) r);;
    room ← theRoom roomId;
    let popped := JS.pop (history room) in
    updateRoom roomId (set_history popped.2);;
    assignRoom roomId (set_drawings (default [] popped.1));;
    room ← theRoom roomId;
    broadcast net roomId (envelope "update-canvas" (JArr (drawings room))) None).

Definition redo : M unit :=
  room ← readRoom roomId;
  when (negb (truthy room)) return_;;
  room ← theRoom roomId;
  when (bool_decide (0 < length (redoStack room))) (
    updateRoom roomId (λ r, set_history (history r ++ [drawings r]) r);;
    room ← theRoom roomId;
    let popped := JS.pop (redoStack room) in
    updateRoom roomId (set_redoStack popped.2);;
    assignRoom roomId (set_drawings (default [] popped.1));;
    room ← theRoom roomId;
    broadcast net roomId (envelope "update-canvas" (JArr (drawings room))) None).

Definition clear : M unit :=
  room ← readRoom roomId;
  when (negb (truthy room)) return_;;
  updateRoom roomId (λ r, set_history (history r ++ [drawings r]) r);;
  assignRoom roomId (set_redoStack []);;
  assignRoom roomId (set_drawings []);;
  room ← theRoom roomId;
  broadcast net roomId (envelope "update-canvas" (JArr (drawings room))) None.

(** [ws.on('message', ...)] *)
Definition onMessage (data : frame) : M unit :=
  call (
    parsed ← JSON_parse data;
    message ← coercible (Some parsed);
    let event := JS.prop "event" message in
    let eventData := JS.prop "data" message in
    when (JS.is_string "join-room" event) (join_room eventData);;
    when (JS.is_string "draw" event) (draw eventData);;
    when (JS.is_string "undo" event) undo;;
    when (JS.is_string "redo" event) redo;;
    when (JS.is_string "clear" event) clear).

(** [ws.on('close', ...)] *)
Definition onClose (now : Z) : M unit :=
  call (
    room ← readRoom roomId;
    when (truthy room) (
      assignRoom roomId (λ r, set_users (filter (λ client, client ≠ ws) (users r)) r);;
      checkAndDeleteRoom now roomId)).

End Connection.

(** ** What a handler leaves behind *)

(** The world in which a handler stopped, however it stopped. *)
Definition after {A : Type} (o : outcome A) : world :=
  match o with
  | Next _ w | Return w | Throw _ w => w
  end.

(** One inbound frame: the connection it arrives on, the state of the
    sockets at that time, and the frame. *)
Record arrival : Type := mkArrival {
  arr_net : socket → ReadyState;
  arr_ws : socket;
  arr_roomId : string;
  arr_data : frame
}.

(** The worlds reached after each of a sequence of frames. A handler that
    throws leaves the world as it was when it threw. *)
Fixpoint trace (arrivals : list arrival) (w : world) : list world :=
  match arrivals with
  | [] => []
  | a :: rest =>
      let w' := after (onMessage (arr_net a) (arr_ws a) (arr_roomId a) (arr_data a) w) in
      w' :: trace rest w'
  end.

(** The sends of one [broadcast] over the member list [members]. *)
Definition deliveries (net : socket → ReadyState) (members : list socket)
    (message : json) (currentUser : option socket) : list (socket * json) :=
  (λ client, (client, message)) <$>
    filter (λ client, currentUser ≠ Some client ∧ isOpen (net client)) members.

(** The room that each handler leaves when it goes through; the lemmas
    [join_room_run] to [clear_run] establish them from the handlers. *)
Definition joined (ws : socket) (r : Room) : Room :=
  mkRoom (drawings r) (history r) (redoStack r) (users r ++ [ws]) (startTime r).
Definition drawn (drawData : json) (r : Room) : Room :=
  mkRoom (drawings r ++ [drawData]) (history r ++ [drawings r ++ [drawData]]) []
         (users r) (startTime r).
Definition undone (r : Room) : Room :=
  mkRoom (default [] (last (history r))) (removelast (history r))
         (redoStack r ++ [drawings r]) (users r) (startTime r).
Definition redone (r : Room) : Room :=
  mkRoom (default [] (last (redoStack r))) (history r ++ [drawings r])
         (removelast (redoStack r)) (users r) (startTime r).
Definition cleared (r : Room) : Room :=
  mkRoom [] (history r ++ [drawings r]) [] (users r) (startTime r).

(** The moves of a room that a frame arriving on socket [ws] can cause. *)
Inductive moves (ws : socket) (r : Room) : Room → Prop :=
  | move_join : moves ws r (joined ws r)
  | move_draw drawData : moves ws r (drawn drawData r)
  | move_undo : 1 < length (history r) → moves ws r (undone r)
  | move_redo : 0 < length (redoStack r) → moves ws r (redone r)
  | move_clear : moves ws r (cleared r).

(** The world after a handler has replaced [rooms[key]] by [room] and made
    the sends [sent]. *)
Definition updated (key : string) (room : Room) (sent : list (socket * json))
    (w : world) : world :=
  mkWorld (<[key := room]> (rooms w)) (outbox w ++ sent).

(** A frame whose envelope names the event [name]. *)
Definition names_event (name : string) (data : frame) : Prop :=
  ∃ v, data = Text v ∧ JS.prop "event" v = Some (JStr name).

(** A [join-room] frame for the room [key]. *)
Definition join_frame (key : string) (username : option json) (data : frame) : Prop :=
  ∃ v payload, data = Text v ∧ JS.prop "event" v = Some (JStr "join-room") ∧
    JS.prop "data" v = Some payload ∧ payload ≠ JNull ∧
    JS.ToPropertyKey (JS.prop "roomId" payload) = Some key ∧
    JS.prop "username" payload = username.

(** A [draw] frame for the room [key] whose payload, less its [roomId], is
    [drawData], with [strokes] the value of its [strokes]. *)
Definition draw_frame (key : string) (drawData strokes : json) (data : frame) : Prop :=
  ∃ v payload, data = Text v ∧ JS.prop "event" v = Some (JStr "draw") ∧
    JS.prop "data" v = Some payload ∧ payload ≠ JNull ∧
    JS.ToPropertyKey (JS.prop "roomId" payload) = Some key ∧
    JS.rest_without "roomId" payload = drawData ∧
    JS.prop "strokes" drawData = Some strokes.

(** What a handler block on socket [ws] can do to the world [w]: throw or
    return before changing anything, or go through with one move of one
    room. *)
Definition settles (ws : socket) (w : world) (o : outcome unit) : Prop :=
  (∃ e, o = Throw e w) ∨ o = Return w ∨ o = Next tt w ∨
  ∃ key room room' sent,
    rooms w !! key = Some room ∧ moves ws room room' ∧
    o = Next tt (updated key room' sent w).

(** A handler block that stopped, one way or another, without having
    changed the world [w]. *)
Definition leaves (w : world) (o : outcome unit) : Prop :=
  (∃ e, o = Throw e w) ∨ o = Return w ∨ o = Next tt w.

(** The room [roomId] is there and its [history] is not empty. *)
Definition has_history (roomId : string) (w : world) : Prop :=
  ∃ room, rooms w !! roomId = Some room ∧ 1 ≤ length (history room).

(** ** The server as a whole *)

(** What reaches the process: a [POST /create-room] (with its random draw
    and the time), a frame on a connection, or the close of a connection. *)
Inductive request : Type :=
  | CreateRoom (random36 : string) (now : Z)
  | Message (a : arrival)
  | Close (ws : socket) (roomId : string) (now : Z).

Definition serve (r : request) (w : world) : world :=
  match r with
  | CreateRoom random36 now => after (createRoom random36 now w)
  | Message a =>
      after (onMessage (arr_net a) (arr_ws a) (arr_roomId a) (arr_data a) w)
  | Close ws roomId now => after (onClose ws roomId now w)
  end.

Definition serve_all (requests : list request) (w : world) : world :=
  foldl (λ w r, serve r w) w requests.

(** A stored draw operation that passed the check of the draw handler: it
    has a [strokes] whose [length] is not [0]. *)
Definition stroked (d : json) : Prop :=
  ∃ strokes, JS.prop "strokes" d = Some strokes ∧ strokes ≠ JNull ∧
             JS.length_is_0 strokes = false.

(** A room whose [history] starts with the empty canvas and in which every
    operation, in [drawings] and in every snapshot, passed that check. *)
Definition sound_room (r : Room) : Prop :=
  head (history r) = Some [] ∧
  Forall stroked (drawings r) ∧
  Forall (Forall stroked) (history r) ∧
  Forall (Forall stroked) (redoStack r).

Definition sound (w : world) : Prop :=
  ∀ key room, rooms w !! key = Some room → sound_room room.

(** ** A sample session *)

Module Sample.

Definition all_open : socket → ReadyState := λ _, OPEN.

Definition stroke : json := JObj [("x", JNum "1"); ("y", JNum "2")].

Definition drawData : json :=
  JObj [("strokes", JArr [stroke]); ("color", JStr "red")].

Definition draw_data (roomId : string) (strokes : json) : frame :=
  Text (envelope "draw"
          (JObj [("roomId", JStr roomId); ("strokes", strokes);
                 ("color", JStr "red")])).

Definition join_data (roomId username : string) : frame :=
  Text (envelope "join-room"
          (JObj [("roomId", JStr roomId); ("username", JStr username)])).

Definition event_data (event : string) : frame :=
  Text (JObj [("event", JStr event)]).

(** An empty room table, then [POST /create-room] at time 1000 with the
    random draw rendering as ["0.k3x9q2abcde"]. *)
Definition empty : world := mkWorld ∅ [].
Definition created : world := after (createRoom "0.k3x9q2abcde" 1000 empty).

(** Sockets 1 and 2 connect with [?room=k3x9q2] and join; 1 draws. *)
Definition joined1 : world :=
  after (onMessage all_open 1 "k3x9q2" (join_data "k3x9q2" "ann") created).
Definition joined2 : world :=
  after (onMessage all_open 2 "k3x9q2" (join_data "k3x9q2" "bob") joined1).
Definition drew : world :=
  after (onMessage all_open 1 "k3x9q2" (draw_data "k3x9q2" (JArr [stroke])) joined2).

(** A second room, created at time 1500 with the draw ["0.zzzzzz123"];
    socket 3 connects with [?room=k3x9q2] and joins the second room. *)
Definition two_rooms : world := after (createRoom "0.zzzzzz123" 1500 created).
Definition strayed : world :=
  after (onMessage all_open 3 "k3x9q2" (join_data "zzzzzz" "cy") two_rooms).

End Sample.

(** ** Running the pieces *)

Lemma bind_run {A B : Type} (m : M A) (f : A → M B) (w : world) :
  (m ≫= f) w
  = match m w with
    | Next a w' => f a w'
    | Return w' => Return w'
    | Throw e w' => Throw e w'
    end.
Proof. reflexivity. Qed.

Lemma world_eta (w : world) : mkWorld (rooms w) (outbox w) = w.
Proof. by destruct w. Qed.

Lemma updated_same key room w :
  rooms w !! key = Some room → updated key room [] w = w.
Proof.
  intros H. unfold updated. rewrite insert_id by done.
  rewrite app_nil_r. apply world_eta.
Qed.

Lemma updated_updated key room room' sent sent' w :
  updated key room' sent' (updated key room sent w)
  = updated key room' (sent ++ sent') w.
Proof. unfold updated; simpl. by rewrite insert_insert_eq, app_assoc. Qed.

Lemma rooms_updated key room sent w :
  rooms (updated key room sent w) !! key = Some room.
Proof. apply lookup_insert_eq. Qed.

Lemma readRoom_updated key room sent w :
  readRoom key (updated key room sent w) = Next (Own room) (updated key room sent w).
Proof. unfold readRoom. by rewrite rooms_updated. Qed.

Lemma readRoom_not_own key w :
  rooms w !! key = None →
  readRoom key w = Next (if inherited key then Inherited else Undefined) w.
Proof. intros H. unfold readRoom. by rewrite H. Qed.

Lemma theRoom_updated key room sent w :
  theRoom key (updated key room sent w) = Next room (updated key room sent w).
Proof. unfold theRoom. by rewrite rooms_updated. Qed.

Lemma updateRoom_updated key f room sent w :
  updateRoom key f (updated key room sent w) = Next tt (updated key (f room) sent w).
Proof.
  unfold updateRoom. rewrite rooms_updated. f_equal.
  unfold updated; simpl. by rewrite insert_insert_eq.
Qed.

Lemma assignRoom_updated key f room sent w :
  assignRoom key f (updated key room sent w) = Next tt (updated key (f room) sent w).
Proof.
  unfold assignRoom. rewrite rooms_updated. f_equal.
  unfold updated; simpl. by rewrite insert_insert_eq.
Qed.

Lemma forEach_send net message currentUser members rs out :
  forEach members (λ client,
    when (bool_decide (currentUser = Some client)) return_;;
    when (isOpen (net client)) (send client message)) (mkWorld rs out)
  = Next tt (mkWorld rs (out ++ deliveries net members message currentUser)).
Proof.
  revert out. induction members as [|client members IH]; intros out.
  - simpl. unfold deliveries. simpl. by rewrite app_nil_r.
  - cbn [forEach]. unfold mbind, M_bind, call at 1.
    unfold deliveries. rewrite filter_cons.
    destruct (decide (currentUser = Some client)) as [->|Hne].
    + rewrite bool_decide_eq_true_2 by done. cbn.
      rewrite decide_False by (intros [? _]; done).
      apply IH.
    + rewrite bool_decide_eq_false_2 by done. cbn.
      destruct (isOpen (net client)) eqn:Hnet; cbn.
      * rewrite decide_True by done. cbn.
        rewrite IH. unfold deliveries. by rewrite <- app_assoc.
      * rewrite decide_False by (intros [_ ?]; done). apply IH.
Qed.

Lemma broadcast_updated net key message currentUser room sent w :
  broadcast net key message currentUser (updated key room sent w)
  = Next tt (updated key room
               (sent ++ deliveries net (users room) message currentUser) w).
Proof.
  unfold broadcast. rewrite bind_run, theRoom_updated.
  unfold updated. rewrite forEach_send. by rewrite app_assoc.
Qed.

Lemma ret_run {A : Type} (a : A) (w : world) : mret (M := M) a w = Next a w.
Proof. reflexivity. Qed.

Lemma when_true body : when true body = body.
Proof. reflexivity. Qed.

Lemma when_false body w : when false body w = Next tt w.
Proof. reflexivity. Qed.

(** Symbolic execution of a handler on a world whose room is known. *)
Ltac run :=
  repeat first
    [ rewrite bind_run
    | rewrite readRoom_updated
    | rewrite theRoom_updated
    | rewrite updateRoom_updated
    | rewrite assignRoom_updated
    | rewrite broadcast_updated
    | progress cbn [truthy negb]
    | rewrite when_false
    | rewrite when_true
    | rewrite ret_run
    | progress cbn beta iota ].

Ltac at_room H :=
  match type of H with
  | rooms ?w !! ?key = Some ?room =>
      match goal with
      | |- ?h w = _ =>
          transitivity (h (updated key room [] w));
          [ by rewrite (updated_same _ _ _ H) | ]
      end
  end.

Section Runs.
Variable net : socket → ReadyState.
Variable ws : socket.
Variable roomId : string.

Lemma undo_run room w :
  rooms w !! roomId = Some room →
  undo net roomId w
  = Next tt
      (if bool_decide (1 < length (history room))
       then updated roomId (undone room)
              (deliveries net (users room)
                 (envelope "update-canvas" (JArr (drawings (undone room)))) None) w
       else w).
Proof.
  intros H. at_room H. unfold undo. run.
  destruct (bool_decide (1 < length (history room))); run.
  - reflexivity.
  - by rewrite updated_same.
Qed.

Lemma redo_run room w :
  rooms w !! roomId = Some room →
  redo net roomId w
  = Next tt
      (if bool_decide (0 < length (redoStack room))
       then updated roomId (redone room)
              (deliveries net (users room)
                 (envelope "update-canvas" (JArr (drawings (redone room)))) None) w
       else w).
Proof.
  intros H. at_room H. unfold redo. run.
  destruct (bool_decide (0 < length (redoStack room))); run.
  - reflexivity.
  - by rewrite updated_same.
Qed.

Lemma clear_run room w :
  rooms w !! roomId = Some room →
  clear net roomId w
  = Next tt
      (updated roomId (cleared room)
         (deliveries net (users room) (envelope "update-canvas" (JArr [])) None) w).
Proof. intros H. at_room H. unfold clear. run. reflexivity. Qed.

Lemma absent_run w :
  rooms w !! roomId = None →
  inherited roomId = false →
  undo net roomId w = Return w ∧ redo net roomId w = Return w ∧
  clear net roomId w = Return w.
Proof.
  intros H Hi. unfold undo, redo, clear.
  by rewrite !bind_run, !(readRoom_not_own _ _ H), Hi.
Qed.

Lemma inherited_run w :
  rooms w !! roomId = None →
  inherited roomId = true →
  undo net roomId w = Throw TypeError w ∧ redo net roomId w = Throw TypeError w ∧
  clear net roomId w = Throw TypeError w.
Proof.
  intros H Hi. unfold undo, redo, clear.
  rewrite !bind_run, !(readRoom_not_own _ _ H), Hi. cbn [truthy negb when].
  repeat (rewrite bind_run || rewrite ret_run).
  unfold theRoom, updateRoom. by rewrite H.
Qed.

End Runs.

Lemma null_or_not (j : json) : j = JNull ∨ j ≠ JNull.
Proof. destruct j; auto. Qed.

Lemma coercible_run (j : json) (w : world) :
  j ≠ JNull → coercible (Some j) w = Next j w.
Proof. by destruct j. Qed.

Lemma propertyKey_run (v : option json) (key : string) (w : world) :
  JS.ToPropertyKey v = Some key → propertyKey v w = Next key w.
Proof. intros H. unfold propertyKey. by rewrite H. Qed.

Lemma call_run (body : M unit) (w : world) :
  call body w
  = match body w with
    | Next _ w' | Return w' => Next tt w'
    | Throw e w' => Throw e w'
    end.
Proof. reflexivity. Qed.

Section Payloads.
Variable net : socket → ReadyState.
Variable ws : socket.
Variable roomId : string.

Lemma join_room_run payload key room w :
  payload ≠ JNull →
  JS.ToPropertyKey (JS.prop "roomId" payload) = Some key →
  rooms w !! key = Some room →
  join_room net ws (Some payload) w
  = Next tt
      (updated key (joined ws room)
         (deliveries net (users room ++ [ws])
            (envelope "user-joined"
               (JS.object [("username", JS.prop "username" payload)]))
            (Some ws)) w).
Proof.
  intros Hp Hk H. at_room H. unfold join_room.
  rewrite bind_run, (coercible_run _ _ Hp).
  rewrite bind_run, (propertyKey_run _ _ _ Hk). run. reflexivity.
Qed.

Lemma join_room_absent payload key w :
  payload ≠ JNull →
  JS.ToPropertyKey (JS.prop "roomId" payload) = Some key →
  rooms w !! key = None →
  join_room net ws (Some payload) w
  = if inherited key then Throw TypeError w else Next tt w.
Proof.
  intros Hp Hk H. unfold join_room.
  rewrite bind_run, (coercible_run _ _ Hp).
  rewrite bind_run, (propertyKey_run _ _ _ Hk).
  rewrite bind_run, (readRoom_not_own _ _ H).
  destruct (inherited key); cbn [truthy when]; [|done].
  rewrite bind_run. unfold updateRoom. by rewrite H.
Qed.

Lemma draw_run payload key room w :
  payload ≠ JNull →
  JS.ToPropertyKey (JS.prop "roomId" payload) = Some key →
  rooms w !! key = Some room →
  draw net ws (Some payload) w
  = match JS.prop "strokes" (JS.rest_without "roomId" payload) with
    | None | Some JNull => Throw TypeError w
    | Some strokes =>
        if JS.length_is_0 strokes then Return w
        else Next tt
               (updated key (drawn (JS.rest_without "roomId" payload) room)
                  (deliveries net (users room)
                     (envelope "draw" (JS.rest_without "roomId" payload))
                     (Some ws)) w)
    end.
Proof.
  intros Hp Hk H. at_room H. unfold draw.
  rewrite bind_run, (coercible_run _ _ Hp).
  rewrite bind_run, (propertyKey_run _ _ _ Hk). run.
  destruct (JS.prop "strokes" _) as [strokes|];
    [|by cbn; unfold throw; rewrite updated_same].
  destruct (null_or_not strokes) as [->|Hn];
    [by cbn; unfold throw; rewrite updated_same|].
  rewrite (coercible_run _ _ Hn).
  transitivity
    (if JS.length_is_0 strokes then @Return unit w
     else Next tt
            (updated key (drawn (JS.rest_without "roomId" payload) room)
               (deliveries net (users room)
                  (envelope "draw" (JS.rest_without "roomId" payload))
                  (Some ws)) w)); [|by destruct strokes].
  destruct (JS.length_is_0 strokes); run.
  - unfold return_. by rewrite updated_same.
  - reflexivity.
Qed.

Lemma draw_absent payload key w :
  payload ≠ JNull →
  JS.ToPropertyKey (JS.prop "roomId" payload) = Some key →
  rooms w !! key = None →
  draw net ws (Some payload) w
  = if inherited key then
      match JS.prop "strokes" (JS.rest_without "roomId" payload) with
      | None | Some JNull => Throw TypeError w
      | Some strokes =>
          if JS.length_is_0 strokes then Return w else Throw TypeError w
      end
    else Return w.
Proof.
  intros Hp Hk H. unfold draw.
  rewrite bind_run, (coercible_run _ _ Hp).
  rewrite bind_run, (propertyKey_run _ _ _ Hk).
  rewrite !bind_run, (readRoom_not_own _ _ H).
  destruct (inherited key); cbn [truthy negb when]; [|done].
  destruct (JS.prop "strokes" _) as [strokes|]; [|done].
  destruct (null_or_not strokes) as [->|Hn]; [done|].
  rewrite bind_run, ret_run, bind_run, (coercible_run _ _ Hn).
  transitivity
    (if JS.length_is_0 strokes then @Return unit w else Throw TypeError w);
    [|by destruct strokes].
  destruct (JS.length_is_0 strokes); [done|]. cbn [when].
  repeat (rewrite bind_run || rewrite ret_run). unfold updateRoom. by rewrite H.
Qed.

(** The dispatch on [event]: at most one of the five blocks runs. *)
Ltac dispatch He :=
  unfold onMessage; rewrite !call_run;
  match type of He with JS.prop _ ?v = _ => destruct v; try discriminate He end;
  cbn [JSON_parse];
  rewrite bind_run, ret_run, bind_run, coercible_run by done;
  rewrite He; cbn [JS.is_string String.eqb Ascii.eqb Bool.eqb];
  unfold when; cbn beta iota; repeat (rewrite bind_run || rewrite ret_run);
  match goal with
  | |- _ = match ?h with _ => _ end => destruct h as [[] ?| |]; reflexivity
  end.

Lemma onMessage_join v w :
  JS.prop "event" v = Some (JStr "join-room") →
  onMessage net ws roomId (Text v) w = call (join_room net ws (JS.prop "data" v)) w.
Proof. intros He. dispatch He. Qed.

Lemma onMessage_draw v w :
  JS.prop "event" v = Some (JStr "draw") →
  onMessage net ws roomId (Text v) w = call (draw net ws (JS.prop "data" v)) w.
Proof. intros He. dispatch He. Qed.

Lemma onMessage_undo v w :
  JS.prop "event" v = Some (JStr "undo") →
  onMessage net ws roomId (Text v) w = call (undo net roomId) w.
Proof. intros He. dispatch He. Qed.

Lemma onMessage_redo v w :
  JS.prop "event" v = Some (JStr "redo") →
  onMessage net ws roomId (Text v) w = call (redo net roomId) w.
Proof. intros He. dispatch He. Qed.

Lemma onMessage_clear v w :
  JS.prop "event" v = Some (JStr "clear") →
  onMessage net ws roomId (Text v) w = call (clear net roomId) w.
Proof. intros He. dispatch He. Qed.

End Payloads.

(** ** Every frame, whatever its shape *)

Section Cases.
Variable net : socket → ReadyState.
Variable ws : socket.
Variable roomId : string.

Lemma leaves_settles w o : leaves w o → settles ws w o.
Proof. intros [?|[?|?]]; [by left|by right; left|by right; right; left]. Qed.

Lemma leaves_after w o : leaves w o → after o = w.
Proof. by intros [[e ->]|[->| ->]]. Qed.

Lemma join_room_not_own payload key w :
  payload ≠ JNull →
  JS.ToPropertyKey (JS.prop "roomId" payload) = Some key →
  rooms w !! key = None →
  leaves w (join_room net ws (Some payload) w).
Proof.
  intros Hp Hk H. rewrite (join_room_absent _ _ _ _ _ Hp Hk H).
  destruct (inherited key); [left; by eexists|by right; right].
Qed.

Lemma draw_not_own payload key w :
  payload ≠ JNull →
  JS.ToPropertyKey (JS.prop "roomId" payload) = Some key →
  rooms w !! key = None →
  leaves w (draw net ws (Some payload) w).
Proof.
  intros Hp Hk H. rewrite (draw_absent _ _ _ _ _ Hp Hk H).
  destruct (inherited key); [|by right; left].
  destruct (JS.prop "strokes" _) as [strokes|]; [|left; by eexists].
  destruct (null_or_not strokes) as [->|Hn]; [left; by eexists|].
  assert (leaves w
    (if JS.length_is_0 strokes then Return w else Throw TypeError w)) as Hl.
  { destruct (JS.length_is_0 strokes); [by right; left|left; by eexists]. }
  by destruct strokes.
Qed.

Lemma bound_not_own w :
  rooms w !! roomId = None →
  leaves w (undo net roomId w) ∧ leaves w (redo net roomId w) ∧
  leaves w (clear net roomId w).
Proof.
  intros H. destruct (inherited roomId) eqn:Hi.
  - destruct (inherited_run net roomId w H Hi) as (-> & -> & ->).
    split_and!; left; by eexists.
  - destruct (absent_run net roomId w H Hi) as (-> & -> & ->).
    split_and!; by right; left.
Qed.

Lemma join_room_settles eventData w : settles ws w (join_room net ws eventData w).
Proof.
  destruct eventData as [payload|]; [|left; by eexists].
  destruct (null_or_not payload) as [->|Hp]; [left; by eexists|].
  destruct (JS.ToPropertyKey (JS.prop "roomId" payload)) as [key|] eqn:Hk.
  - destruct (rooms w !! key) as [room|] eqn:H.
    + rewrite (join_room_run _ _ _ _ _ _ Hp Hk H).
      do 3 right. eexists key, room, _, _. split_and!; [done|constructor|done].
    + by apply leaves_settles, (join_room_not_own _ key).
  - left. exists TypeError. unfold join_room.
    rewrite bind_run, (coercible_run _ _ Hp). unfold propertyKey.
    by rewrite bind_run, Hk.
Qed.

Lemma draw_settles eventData w : settles ws w (draw net ws eventData w).
Proof.
  destruct eventData as [payload|]; [|left; by eexists].
  destruct (null_or_not payload) as [->|Hp]; [left; by eexists|].
  destruct (JS.ToPropertyKey (JS.prop "roomId" payload)) as [key|] eqn:Hk.
  - destruct (rooms w !! key) as [room|] eqn:H.
    + rewrite (draw_run _ _ _ _ _ _ Hp Hk H).
      destruct (JS.prop "strokes" _) as [strokes|]; [|left; by eexists].
      destruct (null_or_not strokes) as [->|Hn]; [left; by eexists|].
      assert (settles ws w
        (if JS.length_is_0 strokes then Return w
         else Next tt
                (updated key (drawn (JS.rest_without "roomId" payload) room)
                   (deliveries net (users room)
                      (envelope "draw" (JS.rest_without "roomId" payload))
                      (Some ws)) w))) as Hs.
      { destruct (JS.length_is_0 strokes); [by right; left|].
        do 3 right. eexists key, room, _, _. split_and!; [done|constructor|done]. }
      by destruct strokes.
    + by apply leaves_settles, (draw_not_own _ key).
  - left. exists TypeError. unfold draw.
    rewrite bind_run, (coercible_run _ _ Hp). unfold propertyKey.
    by rewrite bind_run, Hk.
Qed.

Lemma undo_settles w : settles ws w (undo net roomId w).
Proof.
  destruct (rooms w !! roomId) as [room|] eqn:H.
  - rewrite (undo_run _ _ _ _ H). case_bool_decide; [|by right; right; left].
    do 3 right. eexists roomId, room, _, _. split_and!; [done|by constructor|done].
  - by apply leaves_settles, bound_not_own.
Qed.

Lemma redo_settles w : settles ws w (redo net roomId w).
Proof.
  destruct (rooms w !! roomId) as [room|] eqn:H.
  - rewrite (redo_run _ _ _ _ H). case_bool_decide; [|by right; right; left].
    do 3 right. eexists roomId, room, _, _. split_and!; [done|by constructor|done].
  - by apply leaves_settles, bound_not_own.
Qed.

Lemma clear_settles w : settles ws w (clear net roomId w).
Proof.
  destruct (rooms w !! roomId) as [room|] eqn:H.
  - rewrite (clear_run _ _ _ _ H).
    do 3 right. eexists roomId, room, _, _. split_and!; [done|constructor|done].
  - by apply leaves_settles, bound_not_own.
Qed.

Lemma call_settles body w : settles ws w (body w) → settles ws w (call body w).
Proof.
  rewrite call_run.
  intros [[e ->]|[->|[->|(key & room & room' & sent & H & Hm & ->)]]].
  - left. by eexists.
  - by right; right; left.
  - by right; right; left.
  - do 3 right. by eexists key, room, room', sent.
Qed.

Lemma event_cases (event : option json) :
  event = Some (JStr "join-room") ∨ event = Some (JStr "draw") ∨
  event = Some (JStr "undo") ∨ event = Some (JStr "redo") ∨
  event = Some (JStr "clear") ∨
  (JS.is_string "join-room" event = false ∧ JS.is_string "draw" event = false ∧
   JS.is_string "undo" event = false ∧ JS.is_string "redo" event = false ∧
   JS.is_string "clear" event = false).
Proof.
  destruct event as [[| | |s| |]|]; try (by do 5 right).
  cbn [JS.is_string].
  destruct (String.eqb_spec s "join-room") as [->|_]; [by left|].
  destruct (String.eqb_spec s "draw") as [->|_]; [by right; left|].
  destruct (String.eqb_spec s "undo") as [->|_]; [by do 2 right; left|].
  destruct (String.eqb_spec s "redo") as [->|_]; [by do 3 right; left|].
  destruct (String.eqb_spec s "clear") as [->|_]; [by do 4 right; left|].
  by do 5 right.
Qed.

Lemma onMessage_no_event v w :
  v ≠ JNull →
  JS.is_string "join-room" (JS.prop "event" v) = false →
  JS.is_string "draw" (JS.prop "event" v) = false →
  JS.is_string "undo" (JS.prop "event" v) = false →
  JS.is_string "redo" (JS.prop "event" v) = false →
  JS.is_string "clear" (JS.prop "event" v) = false →
  onMessage net ws roomId (Text v) w = Next tt w.
Proof.
  intros Hv H1 H2 H3 H4 H5. unfold onMessage. rewrite call_run.
  cbn [JSON_parse]. rewrite bind_run, ret_run, bind_run, coercible_run by done.
  by rewrite H1, H2, H3, H4, H5.
Qed.

(** The message handler never returns early to its caller: it completes
    or throws, and in the latter case the world is untouched. *)
Lemma onMessage_settles data w : settles ws w (onMessage net ws roomId data w).
Proof.
  destruct data as [|v]; [left; by eexists|].
  destruct (null_or_not v) as [->|Hv]; [left; by eexists|].
  destruct (event_cases (JS.prop "event" v))
    as [He|[He|[He|[He|[He|(H1 & H2 & H3 & H4 & H5)]]]]].
  - rewrite (onMessage_join _ _ _ _ _ He). apply call_settles, join_room_settles.
  - rewrite (onMessage_draw _ _ _ _ _ He). apply call_settles, draw_settles.
  - rewrite (onMessage_undo _ _ _ _ _ He). apply call_settles, undo_settles.
  - rewrite (onMessage_redo _ _ _ _ _ He). apply call_settles, redo_settles.
  - rewrite (onMessage_clear _ _ _ _ _ He). apply call_settles, clear_settles.
  - rewrite onMessage_no_event by done. by right; right; left.
Qed.

End Cases.

(** ** Undo and redo *)

Lemma removelast_snoc_last (h : list (list json)) :
  0 < length h → removelast h ++ [default [] (last h)] = h.
Proof.
  destruct h as [|x h] using rev_ind; [simpl; lia|]. intros _.
  by rewrite removelast_last, last_snoc.
Qed.

Lemma redone_undone (room : Room) :
  0 < length (history room) → redone (undone room) = room.
Proof.
  intros H. destruct room as [d h r u t]. unfold redone, undone. cbn in *.
  by rewrite last_snoc, removelast_last, removelast_snoc_last.
Qed.

(** C10. In a room whose [history] has more than one entry, an [undo]
    frame followed at once by a [redo] frame, on connections bound to that
    room, both go through and leave the whole room table, hence the room's
    [drawings], [history] and [redoStack], as it was before the [undo]. *)
Theorem undo_then_redo_restores_room
    (net net' : socket → ReadyState) (ws ws' : socket) (roomId : string)
    (data data' : frame) (w : world) (room : Room) :
  names_event "undo" data →
  names_event "redo" data' →
  rooms w !! roomId = Some room →
  1 < length (history room) →
  ∃ w1 w2,
    onMessage net ws roomId data w = Next tt w1 ∧
    onMessage net' ws' roomId data' w1 = Next tt w2 ∧
    rooms w1 !! roomId = Some (undone room) ∧
    rooms w2 = rooms w.
Proof.
  intros (v & -> & He) (v' & -> & He') H Hlen.
  rewrite (onMessage_undo _ _ _ _ _ He), call_run, (undo_run _ _ _ _ H).
  rewrite bool_decide_eq_true_2 by done.
  eexists _, _. split; [reflexivity|].
  rewrite (onMessage_redo _ _ _ _ _ He'), call_run.
  rewrite (redo_run _ _ _ _ (rooms_updated _ _ _ _)).
  rewrite bool_decide_eq_true_2 by (cbn; rewrite length_app; cbn; lia).
  split; [reflexivity|]. split; [apply rooms_updated|].
  rewrite updated_updated. cbn [rooms updated].
  rewrite redone_undone by lia. by apply insert_id.
Qed.

Lemma undo_then_redo_restores_room_witness :
  ∃ w1 w2,
    onMessage Sample.all_open 1 "k3x9q2" (Sample.event_data "undo") Sample.drew
      = Next tt w1 ∧
    onMessage Sample.all_open 2 "k3x9q2" (Sample.event_data "redo") w1
      = Next tt w2 ∧
    rooms w1 !! "k3x9q2"
      = Some (undone (mkRoom [Sample.drawData] [[]; [Sample.drawData]] [] [1; 2] 1000)) ∧
    rooms w2 = rooms Sample.drew.
Proof.
  apply (undo_then_redo_restores_room Sample.all_open Sample.all_open 1 2 "k3x9q2"
           (Sample.event_data "undo") (Sample.event_data "redo") Sample.drew
           (mkRoom [Sample.drawData] [[]; [Sample.drawData]] [] [1; 2] 1000)).
  - eexists. split; reflexivity.
  - eexists. split; reflexivity.
  - vm_compute. reflexivity.
  - simpl. lia.
Defined.

(** What [undo] makes of the room that a draw has just left: the snapshot
    popped off [history] is the one the draw pushed, so [drawings] keeps
    the new stroke. *)
Lemma undone_drawn (drawData : json) (room : Room) :
  undone (drawn drawData room)
  = mkRoom (drawings room ++ [drawData]) (history room)
           [drawings room ++ [drawData]] (users room) (startTime room).
Proof. unfold undone, drawn. cbn. by rewrite last_snoc, removelast_last. Qed.

(** After a [clear], the same [undo] does bring [drawings] back. *)
Lemma undone_cleared (room : Room) :
  drawings (undone (cleared room)) = drawings room.
Proof. unfold undone, cleared. cbn. by rewrite last_snoc. Qed.

(** C1. In the sample session, socket 1 draws one stroke in the freshly
    created room and undoes at once: both frames go through, [drawings] was
    empty before the draw and still holds the stroke after the undo. *)
Theorem draw_then_undo_keeps_the_stroke :
  ∃ w1 w2,
    drawings <$> rooms Sample.joined2 !! "k3x9q2" = Some [] ∧
    onMessage Sample.all_open 1 "k3x9q2"
      (Sample.draw_data "k3x9q2" (JArr [Sample.stroke])) Sample.joined2
      = Next tt w1 ∧
    onMessage Sample.all_open 1 "k3x9q2" (Sample.event_data "undo") w1
      = Next tt w2 ∧
    drawings <$> rooms w2 !! "k3x9q2" = Some [Sample.drawData].
Proof. eexists _, _. split_and!; by vm_compute. Qed.

(** C2. In the sample session after the draw, [history] is
    [[[]; [drawData]]]; the [undo] pops [[drawData]] and assigns that popped
    snapshot to [drawings], while the new top of [history] is the empty
    canvas. The [update-canvas] sent to both members carries the stroke. *)
Theorem undo_assigns_the_popped_snapshot :
  ∃ w,
    history <$> rooms Sample.drew !! "k3x9q2" = Some [[]; [Sample.drawData]] ∧
    onMessage Sample.all_open 1 "k3x9q2" (Sample.event_data "undo") Sample.drew
      = Next tt w ∧
    history <$> rooms w !! "k3x9q2" = Some [[]] ∧
    redoStack <$> rooms w !! "k3x9q2" = Some [[Sample.drawData]] ∧
    drawings <$> rooms w !! "k3x9q2" = Some [Sample.drawData] ∧
    drop (length (outbox Sample.drew)) (outbox w)
      = [(1, envelope "update-canvas" (JArr [Sample.drawData]));
         (2, envelope "update-canvas" (JArr [Sample.drawData]))].
Proof. eexists. split_and!; by vm_compute. Qed.

(** ** The history invariant *)

Lemma moves_history (ws : socket) (room room' : Room) :
  moves ws room room' →
  1 ≤ length (history room) → 1 ≤ length (history room').
Proof.
  intros [|drawData|Hlen|Hlen|] H; cbn; rewrite ?length_app; cbn; try lia.
  destruct (history room) as [|x h] using rev_ind; [simpl in *; lia|].
  rewrite removelast_last. rewrite length_app in Hlen. cbn in Hlen. lia.
Qed.

Lemma onMessage_has_history net ws roomId data (key : string) (w : world) :
  has_history key w →
  has_history key (after (onMessage net ws roomId data w)).
Proof.
  intros (room & H & Hlen).
  destruct (onMessage_settles net ws roomId data w)
    as [[e ->]|[->|[->|(k & r & r' & sent & Hk & Hm & ->)]]];
    try (by exists room).
  cbn [after]. unfold has_history, updated. cbn [rooms].
  destruct (decide (k = key)) as [->|Hne].
  - exists r'. rewrite lookup_insert_eq. split; [done|].
    eapply moves_history; [done|]. by simplify_eq.
  - exists room. by rewrite lookup_insert_ne.
Qed.

Lemma trace_has_history (key : string) (arrivals : list arrival) (w : world) :
  has_history key w → Forall (has_history key) (trace arrivals w).
Proof.
  revert w. induction arrivals as [|a arrivals IH]; intros w H; cbn [trace].
  - constructor.
  - pose proof (onMessage_has_history (arr_net a) (arr_ws a) (arr_roomId a)
                  (arr_data a) key w H) as H'.
    constructor; [done|]. by apply IH.
Qed.

(** C5. From a freshly created room, after every frame of every sequence
    of frames, arriving on any connections (in particular every sequence of
    draw, undo, redo and clear operations on the room), the room is still
    there and its [history] has at least one entry. *)
Theorem history_never_empty
    (random36 : string) (now : Z) (w : world) (arrivals : list arrival) :
  Forall
    (λ w', ∃ room, rooms w' !! generateRoomId random36 = Some room ∧
                   1 ≤ length (history room))
    (trace arrivals (after (createRoom random36 now w))).
Proof.
  apply trace_has_history. eexists. split; [apply lookup_insert_eq|]. cbn. lia.
Qed.

(** ** The reaper *)

Lemma checkAndDeleteRoom_run (now : Z) (roomId : string) (w : world) :
  checkAndDeleteRoom now roomId w
  = match rooms w !! roomId with
    | Some room =>
        Next tt
          (if bool_decide (users room = [] ∧ (300000 ≤ now - startTime room)%Z)
           then mkWorld (delete roomId (rooms w)) (outbox w)
           else w)
    | None => if inherited roomId then Throw TypeError w else Next tt w
    end.
Proof.
  unfold checkAndDeleteRoom, readRoom. rewrite bind_run.
  destruct (rooms w !! roomId) as [room|]; [|by destruct (inherited roomId)].
  destruct (users room) as [|client members]; cbn [length]; unfold when;
    repeat case_bool_decide; try reflexivity; exfalso;
    intuition (lia || discriminate).
Qed.

(** C7. The reaper check sends nothing and leaves every other room alone;
    it takes the room out of the table exactly when the room is there, has
    no member and was created at least 300000 ms (5 minutes) before [now],
    and otherwise leaves the table as it is. A room with a member stays
    whatever the time. The check completes, except under a name that the
    table does not own but inherits from [Object.prototype], where it throws
    a TypeError. *)
Theorem checkAndDeleteRoom_removes_iff (now : Z) (roomId : string) (w : world) :
  let w' := after (checkAndDeleteRoom now roomId w) in
  outbox w' = outbox w ∧
  (∀ key, key ≠ roomId → rooms w' !! key = rooms w !! key) ∧
  ((is_Some (rooms w !! roomId) ∧ rooms w' !! roomId = None) ↔
   (∃ room, rooms w !! roomId = Some room ∧ users room = [] ∧
            (300000 ≤ now - startTime room)%Z)) ∧
  (rooms w' !! roomId = None ∨ rooms w' = rooms w) ∧
  (∀ room, rooms w !! roomId = Some room → users room ≠ [] →
           rooms w' = rooms w) ∧
  (is_Some (rooms w !! roomId) ∨ inherited roomId = false →
   checkAndDeleteRoom now roomId w = Next tt w') ∧
  (rooms w !! roomId = None → inherited roomId = true →
   checkAndDeleteRoom now roomId w = Throw TypeError w).
Proof.
  rewrite checkAndDeleteRoom_run.
  destruct (rooms w !! roomId) as [room|] eqn:H.
  - cbn [after]. case_bool_decide as Hc; cbn [rooms outbox].
    + destruct Hc as [Hu Ht]. split_and!.
      * done.
      * intros key Hne. by rewrite lookup_delete_ne.
      * split; [by exists room|]. intros _. split; [done|apply lookup_delete_eq].
      * left. apply lookup_delete_eq.
      * intros room' ? Hn. by simplify_eq.
      * done.
      * done.
    + split_and!; try done.
      * split.
        -- intros [_ Hnone]. congruence.
        -- intros (room' & ? & Hu & Ht). simplify_eq. naive_solver.
      * by right.
  - assert (after (if inherited roomId then @Throw unit TypeError w
                   else Next tt w) = w) as -> by (by destruct (inherited roomId)).
    split_and!; try done.
    + split.
      * intros [[? ?] _]. congruence.
      * intros (room' & ? & _). congruence.
    + by right.
    + intros [[? ?]| ->]; [congruence|done].
    + by intros _ ->.
Qed.

Lemma checkAndDeleteRoom_removes_iff_witness :
  checkAndDeleteRoom 361000 "k3x9q2" Sample.created
    = Next tt (after (checkAndDeleteRoom 361000 "k3x9q2" Sample.created)) ∧
  rooms (after (checkAndDeleteRoom 361000 "k3x9q2" Sample.created)) !! "k3x9q2"
    = None ∧
  checkAndDeleteRoom 241000 "k3x9q2" Sample.created = Next tt Sample.created ∧
  checkAndDeleteRoom 361000 "constructor" Sample.created
    = Throw TypeError Sample.created.
Proof.
  destruct (checkAndDeleteRoom_removes_iff 361000 "k3x9q2" Sample.created)
    as (_ & _ & [_ Hgone] & _ & _ & Hrun & _).
  destruct (checkAndDeleteRoom_removes_iff 361000 "constructor" Sample.created)
    as (_ & _ & _ & _ & _ & _ & Hthrow).
  split_and!.
  - apply Hrun. left. exists (mkRoom [] [[]] [] [] 1000). by vm_compute.
  - apply Hgone. exists (mkRoom [] [[]] [] [] 1000).
    split; [by vm_compute|]. split; [reflexivity|]. simpl. lia.
  - by vm_compute.
  - apply Hthrow; by vm_compute.
Defined.

(** ** Draw with no strokes *)

Lemma own_filter (name name' : string) (props : list (string * json)) :
  name ≠ name' →
  JS.own name (filter (λ p, p.1 ≠ name') props) = JS.own name props.
Proof.
  intros Hne. induction props as [|[k v] props IH]; [done|].
  rewrite filter_cons. cbn [fst JS.own]. case_decide as Hk.
  - cbn [JS.own]. by rewrite IH.
  - subst k.
    destruct (String.eqb_spec name' name) as [->|_]; [done|apply IH].
Qed.

(** C8. A [draw] frame whose payload has the empty array as [strokes]
    leaves the world as the frame found it, whether or not its room exists:
    no room's [drawings], [history] or [redoStack] changes and nothing is
    sent. The handler completes whenever the payload's [roomId] converts to
    a property key. *)
Theorem draw_without_strokes_is_ignored
    (net : socket → ReadyState) (ws : socket) (roomId : string)
    (v payload : json) (w : world) :
  JS.prop "event" v = Some (JStr "draw") →
  JS.prop "data" v = Some payload →
  JS.prop "strokes" payload = Some (JArr []) →
  after (onMessage net ws roomId (Text v) w) = w ∧
  (∀ key, JS.ToPropertyKey (JS.prop "roomId" payload) = Some key →
          onMessage net ws roomId (Text v) w = Next tt w).
Proof.
  intros He Hd Hs.
  destruct payload as [| | | | |props]; try discriminate Hs.
  assert (JObj props ≠ JNull) as Hp by done.
  assert (JS.prop "strokes" (JS.rest_without "roomId" (JObj props))
          = Some (JArr [])) as Hs'.
  { cbn [JS.prop JS.rest_without JS.ownEntries]. by rewrite own_filter. }
  assert (∀ key, JS.ToPropertyKey (JS.prop "roomId" (JObj props)) = Some key →
                 onMessage net ws roomId (Text v) w = Next tt w) as Hkey.
  { intros key Hk.
    rewrite (onMessage_draw _ _ _ _ _ He), call_run, Hd.
    destruct (rooms w !! key) as [room|] eqn:H.
    - by rewrite (draw_run _ _ _ _ _ _ Hp Hk H), Hs'.
    - rewrite (draw_absent _ _ _ _ _ Hp Hk H), Hs'.
      by destruct (inherited key). }
  split; [|done].
  destruct (JS.ToPropertyKey (JS.prop "roomId" (JObj props))) as [key|] eqn:Hk.
  - by rewrite (Hkey key).
  - rewrite (onMessage_draw _ _ _ _ _ He), call_run, Hd. unfold draw.
    rewrite bind_run, coercible_run by done. unfold propertyKey.
    by rewrite bind_run, Hk.
Qed.

Lemma draw_without_strokes_is_ignored_witness :
  after (onMessage Sample.all_open 2 "k3x9q2"
           (Sample.draw_data "k3x9q2" (JArr [])) Sample.drew) = Sample.drew ∧
  (∀ key,
     JS.ToPropertyKey
       (JS.prop "roomId"
          (JObj [("roomId", JStr "k3x9q2"); ("strokes", JArr []);
                 ("color", JStr "red")])) = Some key →
     onMessage Sample.all_open 2 "k3x9q2"
       (Sample.draw_data "k3x9q2" (JArr [])) Sample.drew = Next tt Sample.drew).
Proof.
  apply (draw_without_strokes_is_ignored Sample.all_open 2 "k3x9q2"
           (envelope "draw"
              (JObj [("roomId", JStr "k3x9q2"); ("strokes", JArr []);
                     ("color", JStr "red")]))
           (JObj [("roomId", JStr "k3x9q2"); ("strokes", JArr []);
                  ("color", JStr "red")]) Sample.drew); reflexivity.
Defined.

(** ** Who receives a broadcast *)

Lemma isOpen_OPEN (s : ReadyState) : isOpen s ↔ s = OPEN.
Proof. by destruct s. Qed.

Lemma elem_of_deliveries net members msg currentUser (client : socket) (message : json) :
  (client, message) ∈ deliveries net members msg currentUser ↔
  message = msg ∧ client ∈ members ∧ currentUser ≠ Some client ∧ net client = OPEN.
Proof.
  unfold deliveries. rewrite list_elem_of_fmap. split.
  - intros (c & [= -> ->] & Hc). apply list_elem_of_filter in Hc.
    rewrite isOpen_OPEN in Hc. naive_solver.
  - intros (-> & Hc & Hne & Hopen). exists client. split; [done|].
    apply list_elem_of_filter. by rewrite isOpen_OPEN.
Qed.

(** C6. Every handler that goes through sends its one message to the
    members of the room it acted on whose socket is open: all of them but
    the sender's socket [ws] for [join-room] (the member list being read
    after [ws] was added) and for [draw], all of them, the requester's
    included, for [undo], [redo] and [clear]. *)
Theorem broadcast_recipients
    (net : socket → ReadyState) (ws : socket) (roomId : string) (w : world) :
  (∀ data key username room,
     join_frame key username data → rooms w !! key = Some room →
     ∃ sent,
       onMessage net ws roomId data w
         = Next tt (updated key (joined ws room) sent w) ∧
       ∀ client message, (client, message) ∈ sent ↔
         message = envelope "user-joined" (JS.object [("username", username)]) ∧
         client ∈ users (joined ws room) ∧ net client = OPEN ∧ client ≠ ws) ∧
  (∀ data key drawData stroke strokes room,
     draw_frame key drawData (JArr (stroke :: strokes)) data →
     rooms w !! key = Some room →
     ∃ sent,
       onMessage net ws roomId data w
         = Next tt (updated key (drawn drawData room) sent w) ∧
       ∀ client message, (client, message) ∈ sent ↔
         message = envelope "draw" drawData ∧
         client ∈ users room ∧ net client = OPEN ∧ client ≠ ws) ∧
  (∀ data room,
     names_event "undo" data → rooms w !! roomId = Some room →
     1 < length (history room) →
     ∃ sent,
       onMessage net ws roomId data w
         = Next tt (updated roomId (undone room) sent w) ∧
       ∀ client message, (client, message) ∈ sent ↔
         message = envelope "update-canvas" (JArr (drawings (undone room))) ∧
         client ∈ users room ∧ net client = OPEN) ∧
  (∀ data room,
     names_event "redo" data → rooms w !! roomId = Some room →
     0 < length (redoStack room) →
     ∃ sent,
       onMessage net ws roomId data w
         = Next tt (updated roomId (redone room) sent w) ∧
       ∀ client message, (client, message) ∈ sent ↔
         message = envelope "update-canvas" (JArr (drawings (redone room))) ∧
         client ∈ users room ∧ net client = OPEN) ∧
  (∀ data room,
     names_event "clear" data → rooms w !! roomId = Some room →
     ∃ sent,
       onMessage net ws roomId data w
         = Next tt (updated roomId (cleared room) sent w) ∧
       ∀ client message, (client, message) ∈ sent ↔
         message = envelope "update-canvas" (JArr []) ∧
         client ∈ users room ∧ net client = OPEN).
Proof.
  split_and!.
  - intros data key username room
      (v & payload & -> & He & Hd & Hp & Hk & <-) H.
    rewrite (onMessage_join _ _ _ _ _ He), call_run, Hd.
    rewrite (join_room_run _ _ _ _ _ _ Hp Hk H).
    eexists. split; [reflexivity|]. intros client message.
    rewrite elem_of_deliveries. cbn [joined users]. naive_solver.
  - intros data key drawData stroke strokes room
      (v & payload & -> & He & Hd & Hp & Hk & <- & Hs) H.
    rewrite (onMessage_draw _ _ _ _ _ He), call_run, Hd.
    rewrite (draw_run _ _ _ _ _ _ Hp Hk H), Hs. cbn.
    eexists. split; [reflexivity|]. intros client message.
    rewrite elem_of_deliveries. naive_solver.
  - intros data room (v & -> & He) H Hlen.
    rewrite (onMessage_undo _ _ _ _ _ He), call_run, (undo_run _ _ _ _ H).
    rewrite bool_decide_eq_true_2 by done.
    eexists. split; [reflexivity|]. intros client message.
    rewrite elem_of_deliveries. naive_solver.
  - intros data room (v & -> & He) H Hlen.
    rewrite (onMessage_redo _ _ _ _ _ He), call_run, (redo_run _ _ _ _ H).
    rewrite bool_decide_eq_true_2 by done.
    eexists. split; [reflexivity|]. intros client message.
    rewrite elem_of_deliveries. naive_solver.
  - intros data room (v & -> & He) H.
    rewrite (onMessage_clear _ _ _ _ _ He), call_run, (clear_run _ _ _ _ H).
    eexists. split; [reflexivity|]. intros client message.
    rewrite elem_of_deliveries. naive_solver.
Qed.

Lemma broadcast_recipients_witness :
  (∃ sent,
     onMessage Sample.all_open 1 "k3x9q2"
       (Sample.draw_data "k3x9q2" (JArr [Sample.stroke])) Sample.joined2
       = Next tt
           (updated "k3x9q2"
              (drawn Sample.drawData (mkRoom [] [[]] [] [1; 2] 1000)) sent
              Sample.joined2) ∧
     ∀ client message, (client, message) ∈ sent ↔
       message = envelope "draw" Sample.drawData ∧
       client ∈ [1; 2] ∧ Sample.all_open client = OPEN ∧ client ≠ 1) ∧
  (∃ sent,
     onMessage Sample.all_open 1 "k3x9q2" (Sample.event_data "undo") Sample.drew
       = Next tt
           (updated "k3x9q2"
              (undone (mkRoom [Sample.drawData] [[]; [Sample.drawData]] [] [1; 2] 1000))
              sent Sample.drew) ∧
     ∀ client message, (client, message) ∈ sent ↔
       message = envelope "update-canvas" (JArr [Sample.drawData]) ∧
       client ∈ [1; 2] ∧ Sample.all_open client = OPEN).
Proof.
  split.
  - destruct (broadcast_recipients Sample.all_open 1 "k3x9q2" Sample.joined2)
      as (_ & Hdraw & _).
    apply (Hdraw (Sample.draw_data "k3x9q2" (JArr [Sample.stroke])) "k3x9q2"
             Sample.drawData Sample.stroke [] (mkRoom [] [[]] [] [1; 2] 1000)).
    + eexists _, _. split_and!; try reflexivity. discriminate.
    + vm_compute. reflexivity.
  - destruct (broadcast_recipients Sample.all_open 1 "k3x9q2" Sample.drew)
      as (_ & _ & Hundo & _).
    apply (Hundo (Sample.event_data "undo")
             (mkRoom [Sample.drawData] [[]; [Sample.drawData]] [] [1; 2] 1000)).
    + eexists. split; reflexivity.
    + vm_compute. reflexivity.
    + simpl. lia.
Defined.

(** ** Creating a room *)

Lemma createRoom_run (random36 : string) (now : Z) (w : world) :
  createRoom random36 now w
  = Next (generateRoomId random36)
      (mkWorld (<[generateRoomId random36 := mkRoom [] [[]] [] [] now]> (rooms w))
               (outbox w)).
Proof. reflexivity. Qed.

(** C3. In the sample session after the draw, a creation request whose
    random draw renders as ["0.k3x9q2abcde"] again returns the identifier of
    the live room, which is in use, and replaces that room, with its drawing
    and its two members, by an empty one: nothing checks the generated
    identifier against the table. *)
Theorem createRoom_overwrites_live_room :
  (∃ room, rooms Sample.drew !! "k3x9q2" = Some room ∧
           drawings room = [Sample.drawData] ∧ users room = [1; 2]) ∧
  ∃ w', createRoom "0.k3x9q2abcde" 2000 Sample.drew = Next "k3x9q2" w' ∧
        rooms w' !! "k3x9q2" = Some (mkRoom [] [[]] [] [] 2000).
Proof.
  split.
  - eexists. split_and!; by vm_compute.
  - eexists. split; by vm_compute.
Qed.

(** ** Disconnecting *)

Lemma onClose_run (ws : socket) (roomId : string) (now : Z) (w : world) :
  onClose ws roomId now w
  = match rooms w !! roomId with
    | Some room =>
        checkAndDeleteRoom now roomId
          (mkWorld
             (<[roomId := set_users (filter (λ client, client ≠ ws) (users room)) room]>
                (rooms w))
             (outbox w))
    | None => if inherited roomId then Throw TypeError w else Next tt w
    end.
Proof.
  unfold onClose. rewrite call_run. unfold readRoom. rewrite bind_run.
  destruct (rooms w !! roomId) as [room|] eqn:H.
  - cbn [truthy]. rewrite when_true, bind_run. unfold assignRoom. rewrite H.
    rewrite checkAndDeleteRoom_run. cbn [rooms]. by rewrite lookup_insert_eq.
  - destruct (inherited roomId) eqn:Hi; cbn [truthy when]; [|done].
    rewrite bind_run. unfold assignRoom. rewrite H, Hi.
    by rewrite checkAndDeleteRoom_run, H, Hi.
Qed.




(** ** Frames that make the handler throw *)

Lemma call_never_returns (body : M unit) (w w' : world) : call body w ≠ Return w'.
Proof. rewrite call_run. by destruct (body w). Qed.

(** C9, as stated, fails: a frame that is not JSON makes the handler throw
    the SyntaxError of [JSON.parse], and a [draw] frame for a live room whose
    payload has no [strokes] makes it throw a TypeError; nothing in the
    handler catches either. *)
Lemma onMessage_throws :
  onMessage Sample.all_open 1 "k3x9q2" NotJSON Sample.drew
    = Throw SyntaxError Sample.drew ∧
  onMessage Sample.all_open 1 "k3x9q2"
    (Text (envelope "draw" (JObj [("roomId", JStr "k3x9q2")]))) Sample.drew
    = Throw TypeError Sample.drew.
Proof. split; by vm_compute. Qed.

(** C9, amended. Processing a frame either completes or throws an
    exception that the handler does not catch. It throws on a frame that is
    not JSON and on an envelope that is [null], and whenever it throws, no
    room has been changed and nothing has been sent: the world is the one
    the frame arrived in. *)
Theorem onMessage_throws_before_any_change
    (net : socket → ReadyState) (ws : socket) (roomId : string)
    (data : frame) (w : world) :
  ((∃ w', onMessage net ws roomId data w = Next tt w') ∨
   (∃ e, onMessage net ws roomId data w = Throw e w)) ∧
  onMessage net ws roomId NotJSON w = Throw SyntaxError w ∧
  onMessage net ws roomId (Text JNull) w = Throw TypeError w.
Proof.
  split; [|done].
  destruct (onMessage_settles net ws roomId data w)
    as [[e He]|[He|[He|(key & room & room' & sent & _ & _ & He)]]].
  - right. by exists e.
  - by apply call_never_returns in He.
  - left. by eexists.
  - left. by eexists.
Qed.

(** ** Frames that change nothing *)

Lemma undo_idle net ws roomId v w room :
  JS.prop "event" v = Some (JStr "undo") →
  rooms w !! roomId = Some room →
  length (history room) ≤ 1 →
  onMessage net ws roomId (Text v) w = Next tt w.
Proof.
  intros He H Hlen.
  rewrite (onMessage_undo _ _ _ _ _ He), call_run, (undo_run _ _ _ _ H).
  by rewrite bool_decide_eq_false_2 by lia.
Qed.

Lemma redo_idle net ws roomId v w room :
  JS.prop "event" v = Some (JStr "redo") →
  rooms w !! roomId = Some room →
  redoStack room = [] →
  onMessage net ws roomId (Text v) w = Next tt w.
Proof.
  intros He H Hr.
  rewrite (onMessage_redo _ _ _ _ _ He), call_run, (redo_run _ _ _ _ H).
  by rewrite Hr.
Qed.

(** X1. An [undo] frame for a room whose [history] has at most one entry
    completes and leaves the world as it is: no field changes and nothing is
    sent. *)
Theorem undo_at_baseline_is_ignored
    (net : socket → ReadyState) (ws : socket) (roomId : string)
    (data : frame) (w : world) (room : Room) :
  names_event "undo" data →
  rooms w !! roomId = Some room →
  length (history room) ≤ 1 →
  onMessage net ws roomId data w = Next tt w.
Proof.
  intros (v & -> & He) H Hlen. by eapply undo_idle.
Qed.

Lemma undo_at_baseline_is_ignored_witness :
  onMessage Sample.all_open 1 "k3x9q2" (Sample.event_data "undo") Sample.joined2
  = Next tt Sample.joined2.
Proof.
  apply (undo_at_baseline_is_ignored Sample.all_open 1 "k3x9q2"
           (Sample.event_data "undo") Sample.joined2 (mkRoom [] [[]] [] [1; 2] 1000)).
  - eexists. split; reflexivity.
  - by vm_compute.
  - simpl. lia.
Defined.

(** X2. A [redo] frame for a room whose [redoStack] is empty completes and
    leaves the world as it is. *)
Theorem redo_with_empty_stack_is_ignored
    (net : socket → ReadyState) (ws : socket) (roomId : string)
    (data : frame) (w : world) (room : Room) :
  names_event "redo" data →
  rooms w !! roomId = Some room →
  redoStack room = [] →
  onMessage net ws roomId data w = Next tt w.
Proof.
  intros (v & -> & He) H Hr. by eapply redo_idle.
Qed.

Lemma redo_with_empty_stack_is_ignored_witness :
  onMessage Sample.all_open 1 "k3x9q2" (Sample.event_data "redo") Sample.drew
  = Next tt Sample.drew.
Proof.
  apply (redo_with_empty_stack_is_ignored Sample.all_open 1 "k3x9q2"
           (Sample.event_data "redo") Sample.drew
           (mkRoom [Sample.drawData] [[]; [Sample.drawData]] [] [1; 2] 1000)).
  - eexists. split; reflexivity.
  - by vm_compute.
  - reflexivity.
Defined.

(** X3. A frame aimed at a name under which the table has nothing, neither
    a room of its own nor anything inherited from [Object.prototype], is
    dropped: the handler completes, creates no room and sends nothing. For
    [undo], [redo] and [clear] the name is the room of the connection's URL;
    for [join-room] and [draw] it is the one in the payload, and a [draw]
    payload is then not even checked for strokes. *)
Theorem frames_for_absent_rooms_are_ignored
    (net : socket → ReadyState) (ws : socket) (roomId : string) (w : world) :
  (∀ data, names_event "undo" data ∨ names_event "redo" data ∨
           names_event "clear" data →
     rooms w !! roomId = None → inherited roomId = false →
     onMessage net ws roomId data w = Next tt w) ∧
  (∀ v payload key,
     JS.prop "event" v = Some (JStr "join-room") ∨
     JS.prop "event" v = Some (JStr "draw") →
     JS.prop "data" v = Some payload → payload ≠ JNull →
     JS.ToPropertyKey (JS.prop "roomId" payload) = Some key →
     rooms w !! key = None → inherited key = false →
     onMessage net ws roomId (Text v) w = Next tt w).
Proof.
  split.
  - intros data Hev H Hi.
    destruct (absent_run net roomId w H Hi) as (Hu & Hr & Hc).
    destruct Hev as [(v & -> & He)|[(v & -> & He)|(v & -> & He)]].
    + by rewrite (onMessage_undo _ _ _ _ _ He), call_run, Hu.
    + by rewrite (onMessage_redo _ _ _ _ _ He), call_run, Hr.
    + by rewrite (onMessage_clear _ _ _ _ _ He), call_run, Hc.
  - intros v payload key [He|He] Hd Hp Hk H Hi.
    + rewrite (onMessage_join _ _ _ _ _ He), call_run, Hd.
      by rewrite (join_room_absent _ _ _ _ _ Hp Hk H), Hi.
    + rewrite (onMessage_draw _ _ _ _ _ He), call_run, Hd.
      by rewrite (draw_absent _ _ _ _ _ Hp Hk H), Hi.
Qed.

Lemma frames_for_absent_rooms_are_ignored_witness :
  onMessage Sample.all_open 1 "nosuch" (Sample.event_data "clear") Sample.drew
    = Next tt Sample.drew ∧
  onMessage Sample.all_open 1 "k3x9q2"
    (Sample.draw_data "nosuch" (JArr [Sample.stroke])) Sample.drew
    = Next tt Sample.drew.
Proof.
  destruct (frames_for_absent_rooms_are_ignored Sample.all_open 1 "nosuch" Sample.drew)
    as [Hbound _].
  destruct (frames_for_absent_rooms_are_ignored Sample.all_open 1 "k3x9q2" Sample.drew)
    as [_ Hnamed].
  split.
  - apply Hbound; [|by vm_compute|by vm_compute].
    right; right. eexists. split; reflexivity.
  - apply (Hnamed _ (JObj [("roomId", JStr "nosuch");
                           ("strokes", JArr [Sample.stroke]);
                           ("color", JStr "red")]) "nosuch");
      [by right|reflexivity|discriminate|reflexivity|by vm_compute|by vm_compute].
Defined.

(** ** Edits, undo and redo together *)

(** X4. A [draw] with strokes and a [clear] both leave the room with an
    empty [redoStack], so that a [redo] frame arriving next, on a connection
    bound to that room, changes nothing and sends nothing. *)
Theorem an_edit_disables_redo
    (net net' : socket → ReadyState) (ws ws' : socket) (roomId : string)
    (w : world) (room : Room) (data' : frame) :
  names_event "redo" data' →
  (∀ data key drawData stroke strokes,
     draw_frame key drawData (JArr (stroke :: strokes)) data →
     rooms w !! key = Some room →
     ∃ w1, onMessage net ws roomId data w = Next tt w1 ∧
           redoStack <$> rooms w1 !! key = Some [] ∧
           onMessage net' ws' key data' w1 = Next tt w1) ∧
  (∀ data,
     names_event "clear" data →
     rooms w !! roomId = Some room →
     ∃ w1, onMessage net ws roomId data w = Next tt w1 ∧
           redoStack <$> rooms w1 !! roomId = Some [] ∧
           onMessage net' ws' roomId data' w1 = Next tt w1).
Proof.
  intros (v' & -> & He'). split.
  - intros data key drawData stroke strokes
      (v & payload & -> & He & Hd & Hp & Hk & <- & Hs) H.
    rewrite (onMessage_draw _ _ _ _ _ He), call_run, Hd.
    rewrite (draw_run _ _ _ _ _ _ Hp Hk H), Hs. cbn [JS.length_is_0 length].
    rewrite bool_decide_eq_false_2 by done.
    eexists. split; [reflexivity|]. split.
    + by rewrite rooms_updated.
    + by eapply redo_idle; [|apply rooms_updated|].
  - intros data (v & -> & He) H.
    rewrite (onMessage_clear _ _ _ _ _ He), call_run, (clear_run _ _ _ _ H).
    eexists. split; [reflexivity|]. split.
    + by rewrite rooms_updated.
    + by eapply redo_idle; [|apply rooms_updated|].
Qed.

Lemma an_edit_disables_redo_witness :
  ∃ w1, onMessage Sample.all_open 1 "k3x9q2" (Sample.event_data "clear")
          Sample.drew = Next tt w1 ∧
        redoStack <$> rooms w1 !! "k3x9q2" = Some [] ∧
        onMessage Sample.all_open 2 "k3x9q2" (Sample.event_data "redo") w1
          = Next tt w1.
Proof.
  destruct (an_edit_disables_redo Sample.all_open Sample.all_open 1 2 "k3x9q2"
              Sample.drew
              (mkRoom [Sample.drawData] [[]; [Sample.drawData]] [] [1; 2] 1000)
              (Sample.event_data "redo")) as [_ Hclear].
  - eexists. split; reflexivity.
  - apply Hclear; [|by vm_compute]. eexists. split; reflexivity.
Defined.

Lemma cleared_undone (room : Room) :
  undone (cleared room)
  = mkRoom (drawings room) (history room) [[]] (users room) (startTime room).
Proof. unfold undone, cleared. cbn. by rewrite last_snoc, removelast_last. Qed.

(** X5. In a room whose [history] is not empty, a [clear] followed at once
    by an [undo] brings [drawings] and [history] back to what they were
    before the clear; [redoStack] then holds the empty canvas alone, and the
    [update-canvas] sent by the undo carries the restored drawings. *)
Theorem clear_then_undo_restores_drawings
    (net net' : socket → ReadyState) (ws ws' : socket) (roomId : string)
    (data data' : frame) (w : world) (room : Room) :
  names_event "clear" data →
  names_event "undo" data' →
  rooms w !! roomId = Some room →
  0 < length (history room) →
  ∃ w1 w2,
    onMessage net ws roomId data w = Next tt w1 ∧
    onMessage net' ws' roomId data' w1 = Next tt w2 ∧
    rooms w2 !! roomId
      = Some (mkRoom (drawings room) (history room) [[]] (users room)
                     (startTime room)) ∧
    outbox w2
      = outbox w1 ++
        deliveries net' (users room)
          (envelope "update-canvas" (JArr (drawings room))) None.
Proof.
  intros (v & -> & He) (v' & -> & He') H Hlen.
  rewrite (onMessage_clear _ _ _ _ _ He), call_run, (clear_run _ _ _ _ H).
  eexists _, _. split; [reflexivity|].
  rewrite (onMessage_undo _ _ _ _ _ He'), call_run.
  rewrite (undo_run _ _ _ _ (rooms_updated _ _ _ _)).
  rewrite bool_decide_eq_true_2 by (cbn; rewrite length_app; cbn; lia).
  split; [reflexivity|]. rewrite cleared_undone. split.
  - apply rooms_updated.
  - reflexivity.
Qed.

Lemma clear_then_undo_restores_drawings_witness :
  ∃ w1 w2,
    onMessage Sample.all_open 1 "k3x9q2" (Sample.event_data "clear") Sample.drew
      = Next tt w1 ∧
    onMessage Sample.all_open 2 "k3x9q2" (Sample.event_data "undo") w1
      = Next tt w2 ∧
    rooms w2 !! "k3x9q2"
      = Some (mkRoom [Sample.drawData] [[]; [Sample.drawData]] [[]] [1; 2] 1000) ∧
    outbox w2
      = outbox w1 ++
        deliveries Sample.all_open [1; 2]
          (envelope "update-canvas" (JArr [Sample.drawData])) None.
Proof.
  apply (clear_then_undo_restores_drawings Sample.all_open Sample.all_open 1 2
           "k3x9q2" (Sample.event_data "clear") (Sample.event_data "undo")
           Sample.drew
           (mkRoom [Sample.drawData] [[]; [Sample.drawData]] [] [1; 2] 1000)).
  - eexists. split; reflexivity.
  - eexists. split; reflexivity.
  - by vm_compute.
  - simpl. lia.
Defined.

Lemma undone_redone (room : Room) :
  0 < length (redoStack room) → undone (redone room) = room.
Proof.
  intros H. destruct room as [d h r u t]. unfold redone, undone. cbn in *.
  by rewrite last_snoc, removelast_last, removelast_snoc_last.
Qed.

(** X6. In a room with a non-empty [redoStack] and a non-empty [history],
    a [redo] followed at once by an [undo] both go through and leave the
    room table as it was before the redo. *)
Theorem redo_then_undo_restores_room
    (net net' : socket → ReadyState) (ws ws' : socket) (roomId : string)
    (data data' : frame) (w : world) (room : Room) :
  names_event "redo" data →
  names_event "undo" data' →
  rooms w !! roomId = Some room →
  0 < length (redoStack room) →
  0 < length (history room) →
  ∃ w1 w2,
    onMessage net ws roomId data w = Next tt w1 ∧
    onMessage net' ws' roomId data' w1 = Next tt w2 ∧
    rooms w1 !! roomId = Some (redone room) ∧
    rooms w2 = rooms w.
Proof.
  intros (v & -> & He) (v' & -> & He') H Hr Hh.
  rewrite (onMessage_redo _ _ _ _ _ He), call_run, (redo_run _ _ _ _ H).
  rewrite bool_decide_eq_true_2 by done.
  eexists _, _. split; [reflexivity|].
  rewrite (onMessage_undo _ _ _ _ _ He'), call_run.
  rewrite (undo_run _ _ _ _ (rooms_updated _ _ _ _)).
  rewrite bool_decide_eq_true_2 by (cbn; rewrite length_app; cbn; lia).
  split; [reflexivity|]. split; [apply rooms_updated|].
  rewrite updated_updated. cbn [rooms updated].
  rewrite undone_redone by done. by apply insert_id.
Qed.

Lemma redo_then_undo_restores_room_witness :
  ∃ w1 w2,
    onMessage Sample.all_open 1 "k3x9q2" (Sample.event_data "redo")
      (after (onMessage Sample.all_open 1 "k3x9q2" (Sample.event_data "undo")
                Sample.drew)) = Next tt w1 ∧
    onMessage Sample.all_open 2 "k3x9q2" (Sample.event_data "undo") w1
      = Next tt w2 ∧
    rooms w1 !! "k3x9q2"
      = Some (redone (mkRoom [Sample.drawData] [[]] [[Sample.drawData]] [1; 2] 1000)) ∧
    rooms w2
      = rooms (after (onMessage Sample.all_open 1 "k3x9q2"
                        (Sample.event_data "undo") Sample.drew)).
Proof.
  apply (redo_then_undo_restores_room Sample.all_open Sample.all_open 1 2
           "k3x9q2" (Sample.event_data "redo") (Sample.event_data "undo")
           (after (onMessage Sample.all_open 1 "k3x9q2"
                     (Sample.event_data "undo") Sample.drew))
           (mkRoom [Sample.drawData] [[]] [[Sample.drawData]] [1; 2] 1000)).
  - eexists. split; reflexivity.
  - eexists. split; reflexivity.
  - by vm_compute.
  - simpl. lia.
  - simpl. lia.
Defined.

(** ** What a frame can and cannot touch *)

Lemma moves_members (ws : socket) (room room' : Room) :
  moves ws room room' →
  startTime room' = startTime room ∧
  (users room' = users room ∨ users room' = users room ++ [ws]).
Proof. intros [| | | |]; cbn; auto. Qed.

(** X7. Whatever the frame, and whether the handler completes or throws:
    the set of room identifiers is unchanged (no room is created or
    deleted by a frame), at most one room differs from before, every room
    keeps its [startTime], a member list is either unchanged or extended at
    its end by the socket the frame arrived on, and the sends made so far
    are kept, new ones being added after them. *)
Theorem a_frame_touches_one_room
    (net : socket → ReadyState) (ws : socket) (roomId : string)
    (data : frame) (w : world) :
  let w' := after (onMessage net ws roomId data w) in
  dom (rooms w') = dom (rooms w) ∧
  (∃ key, ∀ key', key' ≠ key → rooms w' !! key' = rooms w !! key') ∧
  (∀ key room', rooms w' !! key = Some room' →
     ∃ room, rooms w !! key = Some room ∧
             startTime room' = startTime room ∧
             (users room' = users room ∨ users room' = users room ++ [ws])) ∧
  (∃ sent, outbox w' = outbox w ++ sent).
Proof.
  assert (∀ w0 : world,
    dom (rooms w0) = dom (rooms w0) ∧
    (∃ key : string, ∀ key', key' ≠ key → rooms w0 !! key' = rooms w0 !! key') ∧
    (∀ key room', rooms w0 !! key = Some room' →
       ∃ room, rooms w0 !! key = Some room ∧ startTime room' = startTime room ∧
               (users room' = users room ∨ users room' = users room ++ [ws])) ∧
    (∃ sent, outbox w0 = outbox w0 ++ sent)) as Hsame.
  { intros w0. split_and!; [done|by exists ""| |exists []; by rewrite app_nil_r].
    intros key room' H. exists room'. auto. }
  destruct (onMessage_settles net ws roomId data w)
    as [[e ->]|[->|[->|(k & r & r' & sent & Hk & Hm & ->)]]];
    cbn [after]; try apply Hsame.
  destruct (moves_members _ _ _ Hm) as [Ht Hu].
  unfold updated; cbn [rooms outbox]. split_and!.
  - apply dom_insert_lookup_L. by exists r.
  - exists k. intros key' Hne. by rewrite lookup_insert_ne.
  - intros key room' H. destruct (decide (k = key)) as [->|Hne].
    + rewrite lookup_insert_eq in H. injection H as <-. by exists r.
    + rewrite lookup_insert_ne in H by done. exists room'. auto.
  - by exists sent.
Qed.

(** ** Frames of the expected shape *)

(** X8. A frame of the expected shape, aimed at a name under which the
    table has a room of its own or nothing at all (not even something
    inherited from [Object.prototype]), never makes the handler throw: an
    [undo], [redo] or [clear] envelope; a [join-room] whose payload is not
    [null] and whose [roomId] converts to a property key (any string does);
    a [draw] with such a payload whose [strokes] is present and not
    [null]. *)
Theorem frames_of_expected_shape_never_throw
    (net : socket → ReadyState) (ws : socket) (roomId : string) (w : world) :
  (∀ data, names_event "undo" data ∨ names_event "redo" data ∨
           names_event "clear" data →
     is_Some (rooms w !! roomId) ∨ inherited roomId = false →
     ∃ w', onMessage net ws roomId data w = Next tt w') ∧
  (∀ data key username, join_frame key username data →
     is_Some (rooms w !! key) ∨ inherited key = false →
     ∃ w', onMessage net ws roomId data w = Next tt w') ∧
  (∀ data key drawData strokes, draw_frame key drawData strokes data →
     strokes ≠ JNull →
     is_Some (rooms w !! key) ∨ inherited key = false →
     ∃ w', onMessage net ws roomId data w = Next tt w').
Proof.
  assert (∀ key (o : option Room), is_Some o ∨ inherited key = false →
                 o = None → inherited key = false) as Hnot.
  { intros key o [[room Hroom]|Hi] H; [congruence|done]. }
  split_and!.
  - intros data [(v & -> & He)|[(v & -> & He)|(v & -> & He)]] Hname.
    + rewrite (onMessage_undo _ _ _ _ _ He), call_run.
      destruct (rooms w !! roomId) as [room|] eqn:H.
      * rewrite (undo_run _ _ _ _ H). by eexists.
      * destruct (absent_run net roomId w H (Hnot _ _ Hname eq_refl)) as (-> & _ & _).
        by eexists.
    + rewrite (onMessage_redo _ _ _ _ _ He), call_run.
      destruct (rooms w !! roomId) as [room|] eqn:H.
      * rewrite (redo_run _ _ _ _ H). by eexists.
      * destruct (absent_run net roomId w H (Hnot _ _ Hname eq_refl)) as (_ & -> & _).
        by eexists.
    + rewrite (onMessage_clear _ _ _ _ _ He), call_run.
      destruct (rooms w !! roomId) as [room|] eqn:H.
      * rewrite (clear_run _ _ _ _ H). by eexists.
      * destruct (absent_run net roomId w H (Hnot _ _ Hname eq_refl)) as (_ & _ & ->).
        by eexists.
  - intros data key username (v & payload & -> & He & Hd & Hp & Hk & _) Hname.
    rewrite (onMessage_join _ _ _ _ _ He), call_run, Hd.
    destruct (rooms w !! key) as [room|] eqn:H.
    + rewrite (join_room_run _ _ _ _ _ _ Hp Hk H). by eexists.
    + rewrite (join_room_absent _ _ _ _ _ Hp Hk H), (Hnot _ _ Hname eq_refl).
      by eexists.
  - intros data key drawData strokes
      (v & payload & -> & He & Hd & Hp & Hk & <- & Hs) Hn Hname.
    rewrite (onMessage_draw _ _ _ _ _ He), call_run, Hd.
    destruct (rooms w !! key) as [room|] eqn:H.
    + rewrite (draw_run _ _ _ _ _ _ Hp Hk H), Hs.
      destruct strokes; try done; destruct (JS.length_is_0 _); by eexists.
    + rewrite (draw_absent _ _ _ _ _ Hp Hk H), (Hnot _ _ Hname eq_refl). by eexists.
Qed.

Lemma frames_of_expected_shape_never_throw_witness :
  (∃ w', onMessage Sample.all_open 1 "k3x9q2" (Sample.event_data "undo")
           Sample.drew = Next tt w') ∧
  (∃ w', onMessage Sample.all_open 3 "k3x9q2" (Sample.join_data "k3x9q2" "cy")
           Sample.drew = Next tt w') ∧
  (∃ w', onMessage Sample.all_open 2 "k3x9q2"
           (Sample.draw_data "nosuch" (JStr "scribble")) Sample.drew
         = Next tt w').
Proof.
  destruct (frames_of_expected_shape_never_throw Sample.all_open 1 "k3x9q2" Sample.drew)
    as (Hu & _ & _).
  destruct (frames_of_expected_shape_never_throw Sample.all_open 3 "k3x9q2" Sample.drew)
    as (_ & Hj & _).
  destruct (frames_of_expected_shape_never_throw Sample.all_open 2 "k3x9q2" Sample.drew)
    as (_ & _ & Hd).
  assert (is_Some (rooms Sample.drew !! "k3x9q2")) as Hown.
  { exists (mkRoom [Sample.drawData] [[]; [Sample.drawData]] [] [1; 2] 1000).
    by vm_compute. }
  split_and!.
  - apply Hu; [|by left]. left. eexists. split; reflexivity.
  - apply (Hj _ "k3x9q2" (Some (JStr "cy"))); [|by left].
    eexists _, _. split_and!; try reflexivity. discriminate.
  - apply (Hd _ "nosuch"
             (JObj [("strokes", JStr "scribble"); ("color", JStr "red")])
             (JStr "scribble")); [|discriminate|right; by vm_compute].
    eexists _, _. split_and!; try reflexivity. discriminate.
Defined.

(** X18. Under a name that the table does not own but inherits from
    [Object.prototype] (such as [constructor] or [__proto__]), the lookup
    finds an object that is not a room, and the handlers throw a TypeError
    on its missing fields without changing anything: [undo], [redo] and
    [clear] on a connection whose URL gives that name, [join-room] and a
    [draw] with at least one stroke whose payload gives it, the close of
    such a connection, and the reaper check. *)
Theorem inherited_names_make_handlers_throw
    (net : socket → ReadyState) (ws : socket) (roomId : string) (now : Z)
    (w : world) :
  (∀ data, names_event "undo" data ∨ names_event "redo" data ∨
           names_event "clear" data →
     rooms w !! roomId = None → inherited roomId = true →
     onMessage net ws roomId data w = Throw TypeError w) ∧
  (∀ data key username, join_frame key username data →
     rooms w !! key = None → inherited key = true →
     onMessage net ws roomId data w = Throw TypeError w) ∧
  (∀ data key drawData stroke strokes,
     draw_frame key drawData (JArr (stroke :: strokes)) data →
     rooms w !! key = None → inherited key = true →
     onMessage net ws roomId data w = Throw TypeError w) ∧
  (rooms w !! roomId = None → inherited roomId = true →
   onClose ws roomId now w = Throw TypeError w ∧
   checkAndDeleteRoom now roomId w = Throw TypeError w).
Proof.
  split_and!.
  - intros data Hev H Hi.
    destruct (inherited_run net roomId w H Hi) as (Hu & Hr & Hc).
    destruct Hev as [(v & -> & He)|[(v & -> & He)|(v & -> & He)]].
    + by rewrite (onMessage_undo _ _ _ _ _ He), call_run, Hu.
    + by rewrite (onMessage_redo _ _ _ _ _ He), call_run, Hr.
    + by rewrite (onMessage_clear _ _ _ _ _ He), call_run, Hc.
  - intros data key username (v & payload & -> & He & Hd & Hp & Hk & _) H Hi.
    rewrite (onMessage_join _ _ _ _ _ He), call_run, Hd.
    by rewrite (join_room_absent _ _ _ _ _ Hp Hk H), Hi.
  - intros data key drawData stroke strokes
      (v & payload & -> & He & Hd & Hp & Hk & <- & Hs) H Hi.
    rewrite (onMessage_draw _ _ _ _ _ He), call_run, Hd.
    by rewrite (draw_absent _ _ _ _ _ Hp Hk H), Hi, Hs.
  - intros H Hi. by rewrite onClose_run, checkAndDeleteRoom_run, H, Hi.
Qed.

Lemma inherited_names_make_handlers_throw_witness :
  onMessage Sample.all_open 1 "__proto__" (Sample.event_data "undo") Sample.drew
    = Throw TypeError Sample.drew ∧
  onMessage Sample.all_open 1 "k3x9q2" (Sample.join_data "constructor" "cy")
    Sample.drew = Throw TypeError Sample.drew ∧
  onMessage Sample.all_open 1 "k3x9q2"
    (Sample.draw_data "toString" (JArr [Sample.stroke])) Sample.drew
    = Throw TypeError Sample.drew ∧
  onClose 1 "constructor" 2000 Sample.drew = Throw TypeError Sample.drew.
Proof.
  destruct (inherited_names_make_handlers_throw Sample.all_open 1 "__proto__"
              2000 Sample.drew) as (Hbound & _).
  destruct (inherited_names_make_handlers_throw Sample.all_open 1 "k3x9q2"
              2000 Sample.drew) as (_ & Hjoin & Hdraw & _).
  destruct (inherited_names_make_handlers_throw Sample.all_open 1 "constructor"
              2000 Sample.drew) as (_ & _ & _ & Hclose).
  split_and!.
  - apply Hbound; [|by vm_compute|by vm_compute].
    left. eexists. split; reflexivity.
  - apply (Hjoin _ "constructor" (Some (JStr "cy")));
      [|by vm_compute|by vm_compute].
    eexists _, _. split_and!; try reflexivity. discriminate.
  - apply (Hdraw _ "toString" Sample.drawData Sample.stroke []);
      [|by vm_compute|by vm_compute].
    eexists _, _. split_and!; try reflexivity. discriminate.
  - apply Hclose; by vm_compute.
Defined.

(** ** The broadcast loop *)

(** X9. [broadcast] on a room that is not in the table throws a TypeError
    before sending anything. On a room that is there it completes, leaves
    the table as it is and sends the message once per listing of each
    member, in the order of the member list, skipping the socket given as
    [currentUser] and every socket whose [readyState] is not [OPEN]. *)
Theorem broadcast_sends_in_member_order
    (net : socket → ReadyState) (roomId : string) (message : json)
    (currentUser : option socket) (w : world) :
  match rooms w !! roomId with
  | None => broadcast net roomId message currentUser w = Throw TypeError w
  | Some room =>
      ∃ w', broadcast net roomId message currentUser w = Next tt w' ∧
            rooms w' = rooms w ∧
            outbox w'
              = outbox w ++
                ((λ client, (client, message)) <$>
                   filter (λ client, currentUser ≠ Some client ∧
                                     isOpen (net client)) (users room))
  end.
Proof.
  destruct (rooms w !! roomId) as [room|] eqn:H.
  - eexists. split.
    + transitivity (broadcast net roomId message currentUser
                      (updated roomId room [] w)).
      * by rewrite (updated_same _ _ _ H).
      * apply broadcast_updated.
    + unfold updated; cbn [rooms outbox]. split; [by apply insert_id|done].
  - unfold broadcast, theRoom. by rewrite bind_run, H.
Qed.

Lemma deliveries_app net l1 l2 message currentUser :
  deliveries net (l1 ++ l2) message currentUser
  = deliveries net l1 message currentUser ++ deliveries net l2 message currentUser.
Proof. unfold deliveries. by rewrite filter_app, fmap_app. Qed.

(** X10. Joins are not deduplicated: after two [join-room] frames from the
    same socket the room lists it twice, at the end, and a [clear] arriving
    then on a connection bound to that room sends its [update-canvas] to
    that socket twice, after the sends to the earlier members, when the
    socket is open. *)
Theorem joining_twice_lists_twice
    (net net' net'' : socket → ReadyState) (ws ws'' : socket)
    (roomId roomId' key : string) (data data' data'' : frame)
    (username username' : option json) (w : world) (room : Room) :
  join_frame key username data →
  join_frame key username' data' →
  names_event "clear" data'' →
  rooms w !! key = Some room →
  net'' ws = OPEN →
  ∃ w1 w2 w3,
    onMessage net ws roomId data w = Next tt w1 ∧
    onMessage net' ws roomId' data' w1 = Next tt w2 ∧
    users <$> rooms w2 !! key = Some (users room ++ [ws; ws]) ∧
    onMessage net'' ws'' key data'' w2 = Next tt w3 ∧
    outbox w3
      = outbox w2 ++
        deliveries net'' (users room) (envelope "update-canvas" (JArr [])) None ++
        [(ws, envelope "update-canvas" (JArr []));
         (ws, envelope "update-canvas" (JArr []))].
Proof.
  intros (v & payload & -> & He & Hd & Hp & Hk & _)
         (v' & payload' & -> & He' & Hd' & Hp' & Hk' & _)
         (v'' & -> & He'') H Hopen.
  rewrite (onMessage_join _ _ _ _ _ He), call_run, Hd.
  rewrite (join_room_run _ _ _ _ _ _ Hp Hk H).
  eexists _, _, _. split; [reflexivity|].
  rewrite (onMessage_join _ _ _ _ _ He'), call_run, Hd'.
  rewrite (join_room_run _ _ _ _ _ _ Hp' Hk' (rooms_updated _ _ _ _)).
  split; [reflexivity|]. split.
  { rewrite rooms_updated. cbn. by rewrite <- app_assoc. }
  rewrite (onMessage_clear _ _ _ _ _ He''), call_run.
  rewrite (clear_run _ _ _ _ (rooms_updated _ _ _ _)).
  split; [reflexivity|]. cbn [joined users updated outbox].
  f_equal. rewrite !deliveries_app, <- app_assoc. f_equal.
  unfold deliveries. rewrite !filter_cons, filter_nil.
  by rewrite !decide_True by (by rewrite isOpen_OPEN).
Qed.

Lemma joining_twice_lists_twice_witness :
  ∃ w1 w2 w3,
    onMessage Sample.all_open 3 "k3x9q2" (Sample.join_data "k3x9q2" "cy")
      Sample.drew = Next tt w1 ∧
    onMessage Sample.all_open 3 "k3x9q2" (Sample.join_data "k3x9q2" "cy") w1
      = Next tt w2 ∧
    users <$> rooms w2 !! "k3x9q2" = Some ([1; 2] ++ [3; 3]) ∧
    onMessage Sample.all_open 1 "k3x9q2" (Sample.event_data "clear") w2
      = Next tt w3 ∧
    outbox w3
      = outbox w2 ++
        deliveries Sample.all_open [1; 2]
          (envelope "update-canvas" (JArr [])) None ++
        [(3, envelope "update-canvas" (JArr []));
         (3, envelope "update-canvas" (JArr []))].
Proof.
  apply (joining_twice_lists_twice Sample.all_open Sample.all_open Sample.all_open
           3 1 "k3x9q2" "k3x9q2" "k3x9q2"
           (Sample.join_data "k3x9q2" "cy") (Sample.join_data "k3x9q2" "cy")
           (Sample.event_data "clear")
           (Some (JStr "cy")) (Some (JStr "cy")) Sample.drew
           (mkRoom [Sample.drawData] [[]; [Sample.drawData]] [] [1; 2] 1000)).
  - eexists _, _. split_and!; try reflexivity. discriminate.
  - eexists _, _. split_and!; try reflexivity. discriminate.
  - eexists. split; reflexivity.
  - by vm_compute.
  - reflexivity.
Defined.

(** ** Joining and leaving *)

Lemma filter_others_all (ws : socket) (l : list socket) :
  ws ∉ l → filter (λ client, client ≠ ws) l = l.
Proof.
  induction l as [|x l IH]; [done|]. intros Hn.
  apply not_elem_of_cons in Hn as [Hne Hn].
  rewrite filter_cons, decide_True by done. by rewrite IH.
Qed.

Lemma filter_others_twice (ws : socket) (l : list socket) :
  filter (λ client, client ≠ ws) (filter (λ client, client ≠ ws) l)
  = filter (λ client, client ≠ ws) l.
Proof.
  apply filter_others_all. rewrite list_elem_of_filter. naive_solver.
Qed.

(** X11. A socket that is not yet a member joins the room its connection
    is bound to and then closes: unless the room has no member left and is
    at least 300000 ms old at that time, the room table is afterwards what
    it was before the join. *)
Theorem join_then_close_restores_table
    (net : socket → ReadyState) (ws : socket) (roomId : string)
    (data : frame) (username : option json) (now : Z) (w : world) (room : Room) :
  join_frame roomId username data →
  rooms w !! roomId = Some room →
  ws ∉ users room →
  users room ≠ [] ∨ (now - startTime room < 300000)%Z →
  ∃ w1 w2,
    onMessage net ws roomId data w = Next tt w1 ∧
    ws ∈ default [] (users <$> rooms w1 !! roomId) ∧
    onClose ws roomId now w1 = Next tt w2 ∧
    rooms w2 = rooms w.
Proof.
  intros (v & payload & -> & He & Hd & Hp & Hk & _) H Hnew Hkeep.
  rewrite (onMessage_join _ _ _ _ _ He), call_run, Hd.
  rewrite (join_room_run _ _ _ _ _ _ Hp Hk H).
  eexists _, _. split; [reflexivity|]. split.
  { rewrite rooms_updated. cbn. apply elem_of_app. right. by left. }
  rewrite onClose_run, rooms_updated, checkAndDeleteRoom_run.
  cbn [rooms outbox updated]. rewrite lookup_insert_eq, insert_insert_eq.
  cbn [joined users set_users startTime drawings history redoStack].
  rewrite filter_app, filter_others_all by done.
  rewrite filter_cons, decide_False by naive_solver.
  rewrite filter_nil, app_nil_r.
  rewrite bool_decide_eq_false_2 by (intros [? ?]; destruct Hkeep; [done|lia]).
  split; [reflexivity|]. cbn [rooms].
  apply insert_id. by destruct room.
Qed.

Lemma join_then_close_restores_table_witness :
  ∃ w1 w2,
    onMessage Sample.all_open 3 "k3x9q2" (Sample.join_data "k3x9q2" "cy")
      Sample.drew = Next tt w1 ∧
    3 ∈ default [] (users <$> rooms w1 !! "k3x9q2") ∧
    onClose 3 "k3x9q2" 999999 w1 = Next tt w2 ∧
    rooms w2 = rooms Sample.drew.
Proof.
  apply (join_then_close_restores_table Sample.all_open 3 "k3x9q2"
           (Sample.join_data "k3x9q2" "cy") (Some (JStr "cy")) 999999 Sample.drew
           (mkRoom [Sample.drawData] [[]; [Sample.drawData]] [] [1; 2] 1000)).
  - eexists _, _. split_and!; try reflexivity. discriminate.
  - by vm_compute.
  - cbn. rewrite !elem_of_cons, elem_of_nil. lia.
  - by left.
Defined.

(** X12. Closing is idempotent at a given time: whatever the first run of
    the close handler left, running it again for the same socket at the same
    time leaves the same. Both runs complete when the name in the
    connection's URL is not one that the table inherits from
    [Object.prototype]. *)
Theorem closing_twice_is_closing_once
    (ws : socket) (roomId : string) (now : Z) (w : world) :
  let w' := after (onClose ws roomId now w) in
  after (onClose ws roomId now w') = w' ∧
  (inherited roomId = false →
   onClose ws roomId now w = Next tt w' ∧ onClose ws roomId now w' = Next tt w').
Proof.
  rewrite onClose_run. destruct (rooms w !! roomId) as [room|] eqn:H.
  - rewrite checkAndDeleteRoom_run. cbn [rooms outbox].
    rewrite lookup_insert_eq. cbn [users set_users startTime after].
    case_bool_decide as Hc.
    + rewrite onClose_run. cbn [rooms]. rewrite lookup_delete_eq.
      split; [by destruct (inherited roomId)|]. by intros ->.
    + rewrite onClose_run. cbn [rooms outbox]. rewrite lookup_insert_eq.
      rewrite checkAndDeleteRoom_run. cbn [rooms outbox].
      rewrite lookup_insert_eq, insert_insert_eq.
      cbn [users set_users startTime drawings history redoStack].
      rewrite filter_others_twice. unfold set_users at 2 4. cbn.
      by rewrite bool_decide_eq_false_2 by done.
  - destruct (inherited roomId) eqn:Hi; cbn [after].
    + split; [|done]. by rewrite onClose_run, H, Hi.
    + rewrite onClose_run, H, Hi. by split.
Qed.

Lemma closing_twice_is_closing_once_witness :
  onClose 1 "k3x9q2" 2000 Sample.drew
    = Next tt (after (onClose 1 "k3x9q2" 2000 Sample.drew)) ∧
  onClose 1 "k3x9q2" 2000 (after (onClose 1 "k3x9q2" 2000 Sample.drew))
    = Next tt (after (onClose 1 "k3x9q2" 2000 Sample.drew)).
Proof.
  apply (closing_twice_is_closing_once 1 "k3x9q2" 2000 Sample.drew).
  by vm_compute.
Defined.

(** ** A new room and the reaper *)

(** X13. The reaper check on a room that has just been created, and has no
    member yet, completes; it removes the room exactly when it runs at
    least 300000 ms after the creation, and changes nothing when it runs
    earlier. *)
Theorem new_room_is_reaped_after_five_minutes
    (random36 : string) (now now' : Z) (w : world) :
  ∃ w',
    checkAndDeleteRoom now' (generateRoomId random36)
      (after (createRoom random36 now w)) = Next tt w' ∧
    (rooms w' !! generateRoomId random36 = None ↔ (300000 ≤ now' - now)%Z) ∧
    ((now' - now < 300000)%Z → w' = after (createRoom random36 now w)).
Proof.
  rewrite checkAndDeleteRoom_run, createRoom_run. cbn [after rooms outbox].
  rewrite lookup_insert_eq. cbn [users startTime].
  eexists. split; [reflexivity|]. case_bool_decide as Hc.
  - destruct Hc as [_ Ht]. cbn [rooms]. split.
    + split; [done|]. intros _. apply lookup_delete_eq.
    + lia.
  - assert (¬ (300000 ≤ now' - now)%Z) by naive_solver.
    cbn [rooms]. rewrite lookup_insert_eq. split; [|done].
    split; [done|lia].
Qed.

(** ** Room identifiers *)

Lemma substring_length (n m : nat) (s : string) :
  String.length (String.substring n m s) = min m (String.length s - n).
Proof.
  revert n m. induction s as [|c s IH]; intros [|n] [|m];
    cbn [String.substring String.length]; rewrite ?IH; lia.
Qed.

Lemma substring_prefix (id rest : string) :
  String.substring 0 (String.length id) (id +:+ rest) = id.
Proof.
  induction id as [|c id IH].
  - by destruct rest.
  - change (String c id +:+ rest) with (String c (id +:+ rest)).
    cbn [String.length String.substring]. by rewrite IH.
Qed.

(** X14. An identifier has the characters of the rendering of the random
    draw from the third on, six at most: its length is the smaller of 6 and
    the length of the rendering less 2 (so it is empty for the rendering
    ["0"]), and for a rendering ["0."] followed by at least six characters
    it is the first six of them. *)
Theorem generateRoomId_takes_six_characters (random36 : string) :
  String.length (generateRoomId random36) = min 6 (String.length random36 - 2) ∧
  (∀ id rest, String.length id = 6 → random36 = "0." +:+ id +:+ rest →
              generateRoomId random36 = id).
Proof.
  split; [apply substring_length|].
  intros id rest Hlen ->. unfold generateRoomId. cbn.
  rewrite <- Hlen. apply substring_prefix.
Qed.

Lemma generateRoomId_takes_six_characters_witness :
  String.length (generateRoomId "0.k3x9q2abcde") = min 6 (String.length "0.k3x9q2abcde" - 2) ∧
  generateRoomId "0.k3x9q2abcde" = "k3x9q2".
Proof.
  destruct (generateRoomId_takes_six_characters "0.k3x9q2abcde") as [Hlen Hid].
  split; [exact Hlen|]. by apply (Hid "k3x9q2" "abcde").
Defined.

(** ** What a draw stores *)

Lemma own_filter_same (name : string) (props : list (string * json)) :
  JS.own name (filter (λ p, p.1 ≠ name) props) = None.
Proof.
  induction props as [|[k v] props IH]; [done|].
  rewrite filter_cons. cbn [fst]. case_decide as Hk; [|done].
  cbn [JS.own]. by destruct (String.eqb_spec k name).
Qed.

(** X15. A [draw] frame with at least one stroke, for a room that is in
    the table, goes through. The operation appended to [drawings] is the
    payload less its [roomId] and with every other field as sent; the new
    [drawings] is pushed on [history], [redoStack] is emptied, members and
    [startTime] are kept, and that same operation is what the [draw]
    message carries to the open members other than the sender. *)
Theorem draw_stores_what_it_sends
    (net : socket → ReadyState) (ws : socket) (roomId : string)
    (v : json) (props : list (string * json)) (key : string)
    (stroke : json) (strokes : list json) (w : world) (room : Room) :
  JS.prop "event" v = Some (JStr "draw") →
  JS.prop "data" v = Some (JObj props) →
  JS.ToPropertyKey (JS.own "roomId" props) = Some key →
  JS.own "strokes" props = Some (JArr (stroke :: strokes)) →
  rooms w !! key = Some room →
  ∃ w' room' drawData,
    onMessage net ws roomId (Text v) w = Next tt w' ∧
    rooms w' !! key = Some room' ∧
    drawings room' = drawings room ++ [drawData] ∧
    history room' = history room ++ [drawings room'] ∧
    redoStack room' = [] ∧
    users room' = users room ∧
    startTime room' = startTime room ∧
    JS.prop "roomId" drawData = None ∧
    (∀ name, name ≠ "roomId" → JS.prop name drawData = JS.own name props) ∧
    outbox w'
      = outbox w ++
        deliveries net (users room) (envelope "draw" drawData) (Some ws).
Proof.
  intros He Hd Hk Hs H.
  assert (JObj props ≠ JNull) as Hp by done.
  assert (JS.prop "strokes" (JS.rest_without "roomId" (JObj props))
          = Some (JArr (stroke :: strokes))) as Hs'.
  { cbn [JS.prop JS.rest_without JS.ownEntries]. by rewrite own_filter. }
  rewrite (onMessage_draw _ _ _ _ _ He), call_run, Hd.
  rewrite (draw_run _ _ _ _ _ _ Hp Hk H), Hs'. cbn [JS.length_is_0 length].
  rewrite bool_decide_eq_false_2 by done.
  eexists _, _, (JS.rest_without "roomId" (JObj props)).
  split; [reflexivity|]. split; [apply rooms_updated|].
  split_and!; try reflexivity.
  - apply own_filter_same.
  - intros name Hne. by apply own_filter.
Qed.

Lemma draw_stores_what_it_sends_witness :
  ∃ w' room' drawData,
    onMessage Sample.all_open 1 "k3x9q2"
      (Sample.draw_data "k3x9q2" (JArr [Sample.stroke])) Sample.joined2
      = Next tt w' ∧
    rooms w' !! "k3x9q2" = Some room' ∧
    drawings room' = [] ++ [drawData] ∧
    history room' = [[]] ++ [drawings room'] ∧
    redoStack room' = [] ∧
    users room' = [1; 2] ∧
    startTime room' = 1000%Z ∧
    JS.prop "roomId" drawData = None ∧
    (∀ name, name ≠ "roomId" →
       JS.prop name drawData
       = JS.own name [("roomId", JStr "k3x9q2"); ("strokes", JArr [Sample.stroke]);
                      ("color", JStr "red")]) ∧
    outbox w'
      = outbox Sample.joined2 ++
        deliveries Sample.all_open [1; 2] (envelope "draw" drawData) (Some 1).
Proof.
  apply (draw_stores_what_it_sends Sample.all_open 1 "k3x9q2"
           (envelope "draw"
              (JObj [("roomId", JStr "k3x9q2"); ("strokes", JArr [Sample.stroke]);
                     ("color", JStr "red")]))
           [("roomId", JStr "k3x9q2"); ("strokes", JArr [Sample.stroke]);
            ("color", JStr "red")]
           "k3x9q2" Sample.stroke [] Sample.joined2
           (mkRoom [] [[]] [] [1; 2] 1000)); reflexivity.
Defined.

(** ** Every reachable state *)

Lemma Forall_removelast {A : Type} (P : A → Prop) (l : list A) :
  Forall P l → Forall P (removelast l).
Proof.
  destruct l as [|x l] using rev_ind; [done|].
  rewrite removelast_last, Forall_app. by intros [? _].
Qed.

Lemma Forall_last_default (P : list json → Prop) (l : list (list json)) :
  P [] → Forall P l → P (default [] (last l)).
Proof.
  intros Hnil Hl. destruct l as [|x l _] using rev_ind; [done|].
  rewrite last_snoc. apply Forall_app in Hl as [_ Hx]. by inversion Hx.
Qed.

Lemma head_removelast (h : list (list json)) :
  1 < length h → head (removelast h) = head h.
Proof. destruct h as [|x [|y h]]; cbn; [lia|lia|done]. Qed.

Lemma head_snoc_keep (h : list (list json)) (x d : list json) :
  head h = Some x → head (h ++ [d]) = Some x.
Proof. by destruct h. Qed.

Lemma sound_joined ws room : sound_room room → sound_room (joined ws room).
Proof. done. Qed.

Lemma sound_drawn drawData room :
  stroked drawData → sound_room room → sound_room (drawn drawData room).
Proof.
  intros Hd (Hh & Hdr & Hhi & Hre). unfold sound_room, drawn. cbn. split_and!.
  - by apply head_snoc_keep.
  - apply Forall_app. by split; [|constructor].
  - apply Forall_app. split; [done|]. constructor; [|done].
    apply Forall_app. by split; [|constructor].
  - constructor.
Qed.

Lemma sound_undone room :
  1 < length (history room) → sound_room room → sound_room (undone room).
Proof.
  intros Hlen (Hh & Hdr & Hhi & Hre). unfold sound_room, undone. cbn. split_and!.
  - by rewrite head_removelast.
  - by apply Forall_last_default.
  - by apply Forall_removelast.
  - apply Forall_app. by split; [|constructor].
Qed.

Lemma sound_redone room : sound_room room → sound_room (redone room).
Proof.
  intros (Hh & Hdr & Hhi & Hre). unfold sound_room, redone. cbn. split_and!.
  - by apply head_snoc_keep.
  - by apply Forall_last_default.
  - apply Forall_app. by split; [|constructor].
  - by apply Forall_removelast.
Qed.

Lemma sound_cleared room : sound_room room → sound_room (cleared room).
Proof.
  intros (Hh & Hdr & Hhi & Hre). unfold sound_room, cleared. cbn. split_and!.
  - by apply head_snoc_keep.
  - constructor.
  - apply Forall_app. by split; [|constructor].
  - constructor.
Qed.

Lemma sound_updated key room' sent w :
  sound w → sound_room room' → sound (updated key room' sent w).
Proof.
  intros Hw Hr k r. unfold updated. cbn [rooms].
  destruct (decide (key = k)) as [->|Hne].
  - rewrite lookup_insert_eq. by intros [= <-].
  - rewrite lookup_insert_ne by done. apply Hw.
Qed.

Lemma after_call (body : M unit) (w : world) : after (call body w) = after (body w).
Proof. rewrite call_run. by destruct (body w). Qed.

Section Soundness.
Variable net : socket → ReadyState.
Variable ws : socket.
Variable roomId : string.

Lemma join_room_sound eventData w :
  sound w → sound (after (join_room net ws eventData w)).
Proof.
  intros Hw. destruct eventData as [payload|]; [|done].
  destruct (null_or_not payload) as [->|Hp]; [done|].
  destruct (JS.ToPropertyKey (JS.prop "roomId" payload)) as [key|] eqn:Hk.
  - destruct (rooms w !! key) as [room|] eqn:H.
    + rewrite (join_room_run _ _ _ _ _ _ Hp Hk H). cbn [after].
      apply sound_updated; [done|]. apply sound_joined. by eapply Hw.
    + by rewrite (leaves_after _ _ (join_room_not_own net ws _ key _ Hp Hk H)).
  - unfold join_room. rewrite bind_run, (coercible_run _ _ Hp).
    unfold propertyKey. by rewrite bind_run, Hk.
Qed.

Lemma draw_sound eventData w :
  sound w → sound (after (draw net ws eventData w)).
Proof.
  intros Hw. destruct eventData as [payload|]; [|done].
  destruct (null_or_not payload) as [->|Hp]; [done|].
  destruct (JS.ToPropertyKey (JS.prop "roomId" payload)) as [key|] eqn:Hk.
  - destruct (rooms w !! key) as [room|] eqn:H.
    + rewrite (draw_run _ _ _ _ _ _ Hp Hk H).
      destruct (JS.prop "strokes" _) as [strokes|] eqn:Hs; [|done].
      destruct (null_or_not strokes) as [->|Hn]; [done|].
      assert (sound (after
        (if JS.length_is_0 strokes then @Return unit w
         else Next tt
                (updated key (drawn (JS.rest_without "roomId" payload) room)
                   (deliveries net (users room)
                      (envelope "draw" (JS.rest_without "roomId" payload))
                      (Some ws)) w)))) as Hgoal.
      { destruct (JS.length_is_0 strokes) eqn:Hlen; [done|]. cbn [after].
        apply sound_updated; [done|]. apply sound_drawn; [|by eapply Hw].
        by exists strokes. }
      by destruct strokes.
    + by rewrite (leaves_after _ _ (draw_not_own net ws _ key _ Hp Hk H)).
  - unfold draw. rewrite bind_run, (coercible_run _ _ Hp).
    unfold propertyKey. by rewrite bind_run, Hk.
Qed.

Lemma undo_sound w : sound w → sound (after (undo net roomId w)).
Proof.
  intros Hw. destruct (rooms w !! roomId) as [room|] eqn:H.
  - rewrite (undo_run _ _ _ _ H). case_bool_decide; [|done]. cbn [after].
    apply sound_updated; [done|]. apply sound_undone; [done|]. by eapply Hw.
  - destruct (bound_not_own net roomId w H) as (Hl & _ & _).
    by rewrite (leaves_after _ _ Hl).
Qed.

Lemma redo_sound w : sound w → sound (after (redo net roomId w)).
Proof.
  intros Hw. destruct (rooms w !! roomId) as [room|] eqn:H.
  - rewrite (redo_run _ _ _ _ H). case_bool_decide; [|done]. cbn [after].
    apply sound_updated; [done|]. apply sound_redone. by eapply Hw.
  - destruct (bound_not_own net roomId w H) as (_ & Hl & _).
    by rewrite (leaves_after _ _ Hl).
Qed.

Lemma clear_sound w : sound w → sound (after (clear net roomId w)).
Proof.
  intros Hw. destruct (rooms w !! roomId) as [room|] eqn:H.
  - rewrite (clear_run _ _ _ _ H). cbn [after].
    apply sound_updated; [done|]. apply sound_cleared. by eapply Hw.
  - destruct (bound_not_own net roomId w H) as (_ & _ & Hl).
    by rewrite (leaves_after _ _ Hl).
Qed.

Lemma onMessage_sound data w :
  sound w → sound (after (onMessage net ws roomId data w)).
Proof.
  intros Hw. destruct data as [|v]; [done|].
  destruct (null_or_not v) as [->|Hv]; [done|].
  destruct (event_cases (JS.prop "event" v))
    as [He|[He|[He|[He|[He|(H1 & H2 & H3 & H4 & H5)]]]]].
  - rewrite (onMessage_join _ _ _ _ _ He), after_call. by apply join_room_sound.
  - rewrite (onMessage_draw _ _ _ _ _ He), after_call. by apply draw_sound.
  - rewrite (onMessage_undo _ _ _ _ _ He), after_call. by apply undo_sound.
  - rewrite (onMessage_redo _ _ _ _ _ He), after_call. by apply redo_sound.
  - rewrite (onMessage_clear _ _ _ _ _ He), after_call. by apply clear_sound.
  - by rewrite onMessage_no_event.
Qed.

End Soundness.

Lemma createRoom_sound random36 now w :
  sound w → sound (after (createRoom random36 now w)).
Proof.
  intros Hw key room. rewrite createRoom_run. cbn [after rooms].
  destruct (decide (generateRoomId random36 = key)) as [->|Hne].
  - rewrite lookup_insert_eq. intros [= <-]. unfold sound_room. cbn.
    split_and!; by repeat constructor.
  - rewrite lookup_insert_ne by done. apply Hw.
Qed.

Lemma onClose_sound ws roomId now w :
  sound w → sound (after (onClose ws roomId now w)).
Proof.
  intros Hw. rewrite onClose_run.
  destruct (rooms w !! roomId) as [room|] eqn:H;
    [|by destruct (inherited roomId)].
  rewrite checkAndDeleteRoom_run. cbn [after rooms outbox].
  rewrite lookup_insert_eq. cbn [after].
  assert (sound (mkWorld
    (<[roomId := set_users (filter (λ client, client ≠ ws) (users room)) room]>
       (rooms w)) (outbox w))) as Hmid.
  { intros key r. cbn [rooms]. destruct (decide (roomId = key)) as [->|Hne].
    - rewrite lookup_insert_eq. intros [= <-]. by apply (Hw key room).
    - rewrite lookup_insert_ne by done. apply Hw. }
  case_bool_decide; [|done].
  intros key r. cbn [rooms]. destruct (decide (roomId = key)) as [->|Hne].
  - by rewrite lookup_delete_eq.
  - rewrite lookup_delete_ne by done. apply Hmid.
Qed.

Lemma serve_all_sound requests w : sound w → sound (serve_all requests w).
Proof.
  revert w. induction requests as [|r requests IH]; intros w Hw; [done|].
  cbn [serve_all foldl]. apply IH. destruct r as [random36 now|a|ws roomId now].
  - by apply createRoom_sound.
  - by apply onMessage_sound.
  - by apply onClose_sound.
Qed.

(** X16. In every state that the server can reach from an empty table by
    room creations, frames and closes, in any number and order, every room
    has the empty canvas as the first entry of its [history], and every
    operation in its [drawings] and in each snapshot of its [history] and
    [redoStack] has a [strokes] that is not [null] and whose [length] is not
    [0]. *)
Theorem every_reachable_room_is_sound (requests : list request) :
  ∀ key room,
    rooms (serve_all requests (mkWorld ∅ [])) !! key = Some room →
    head (history room) = Some [] ∧
    Forall stroked (drawings room) ∧
    Forall (Forall stroked) (history room) ∧
    Forall (Forall stroked) (redoStack room).
Proof.
  apply (serve_all_sound requests (mkWorld ∅ [])). intros key room H.
  cbn [rooms] in H. by rewrite lookup_empty in H.
Qed.

Lemma every_reachable_room_is_sound_witness :
  head [[]; [Sample.drawData]] = Some [] ∧
  Forall stroked [Sample.drawData] ∧
  Forall (Forall stroked) [[]; [Sample.drawData]] ∧
  Forall (Forall stroked) (@nil (list json)).
Proof.
  apply (every_reachable_room_is_sound
           [CreateRoom "0.k3x9q2abcde" 1000;
            Message (mkArrival Sample.all_open 1 "k3x9q2"
                       (Sample.join_data "k3x9q2" "ann"));
            Message (mkArrival Sample.all_open 1 "k3x9q2"
                       (Sample.draw_data "k3x9q2" (JArr [Sample.stroke])))]
           "k3x9q2"
           (mkRoom [Sample.drawData] [[]; [Sample.drawData]] [] [1] 1000)).
  by vm_compute.
Defined.

(** ** Payloads of the wrong shape *)

(** X17. A [join-room] or [draw] envelope whose [data] is missing or
    [null] makes the handler throw a TypeError, and so does a [draw] for a
    room that is in the table when the payload has no [strokes] or a [null]
    one (the same payload for a name under which the table has nothing is
    dropped without an error). In each case the world is untouched. *)
Theorem payloads_of_the_wrong_shape_throw
    (net : socket → ReadyState) (ws : socket) (roomId : string) (w : world) :
  (∀ v,
     JS.prop "event" v = Some (JStr "join-room") ∨
     JS.prop "event" v = Some (JStr "draw") →
     JS.prop "data" v = None ∨ JS.prop "data" v = Some JNull →
     onMessage net ws roomId (Text v) w = Throw TypeError w) ∧
  (∀ v payload key room,
     JS.prop "event" v = Some (JStr "draw") →
     JS.prop "data" v = Some payload → payload ≠ JNull →
     JS.ToPropertyKey (JS.prop "roomId" payload) = Some key →
     rooms w !! key = Some room →
     JS.prop "strokes" (JS.rest_without "roomId" payload) = None ∨
     JS.prop "strokes" (JS.rest_without "roomId" payload) = Some JNull →
     onMessage net ws roomId (Text v) w = Throw TypeError w).
Proof.
  split.
  - intros v [He|He] [Hd|Hd].
    + by rewrite (onMessage_join _ _ _ _ _ He), call_run, Hd.
    + by rewrite (onMessage_join _ _ _ _ _ He), call_run, Hd.
    + by rewrite (onMessage_draw _ _ _ _ _ He), call_run, Hd.
    + by rewrite (onMessage_draw _ _ _ _ _ He), call_run, Hd.
  - intros v payload key room He Hd Hp Hk H Hs.
    rewrite (onMessage_draw _ _ _ _ _ He), call_run, Hd.
    rewrite (draw_run _ _ _ _ _ _ Hp Hk H).
    by destruct Hs as [-> | ->].
Qed.

Lemma payloads_of_the_wrong_shape_throw_witness :
  onMessage Sample.all_open 1 "k3x9q2" (Sample.event_data "join-room") Sample.drew
    = Throw TypeError Sample.drew ∧
  onMessage Sample.all_open 1 "k3x9q2"
    (Text (envelope "draw" (JObj [("roomId", JStr "k3x9q2"); ("strokes", JNull)])))
    Sample.drew
    = Throw TypeError Sample.drew.
Proof.
  destruct (payloads_of_the_wrong_shape_throw Sample.all_open 1 "k3x9q2" Sample.drew)
    as [Hdata Hstrokes].
  split.
  - apply Hdata; by left.
  - apply (Hstrokes _ (JObj [("roomId", JStr "k3x9q2"); ("strokes", JNull)])
             "k3x9q2"
             (mkRoom [Sample.drawData] [[]; [Sample.drawData]] [] [1; 2] 1000));
      [reflexivity|reflexivity|discriminate|reflexivity|by vm_compute|by right].
Defined.
